(** * Investment Performance Simulator: the projection engine of [app.py]

    A shallow embedding of the financial core of [src/app.py]
    ([calculate_future_value], [generate_year_by_year_data],
    [calculate_portfolio_returns] and the numeric parts of the portfolio and
    scenario callbacks), with the properties the specification states about
    it.

    Numbers.  Python computes with binary floating point; here every amount,
    rate and weight is an exact rational ([Q]), so rounding and overflow are
    idealised away and "equal" means equal as numbers ([==]).  The one
    irrational operation of the source, [np.sqrt], takes its value in [R].
    Horizons are Python integers ([Z]).

    Errors.  The exceptions the arithmetic and the dictionary lookups of the
    source can raise on numbers are kept: [ZeroDivisionError] and [KeyError].
    Outside the model are the [OverflowError] of [**] when a power leaves the
    range of a double, and the [TypeError] of an input that is not a number
    (an empty field of the page sends [None]): every amount here is a number
    and every power has a value. *)

From Stdlib Require Import QArith Qpower Qfield ZArith List String Lia Lra Bool.
From Stdlib Require Import Reals Qreals Psatz.
Import ListNotations.

Open Scope Q_scope.

(** ** Exceptions and fallible computations *)

Inductive PyError : Type :=
| ZeroDivisionError
| KeyError (key : string).

Inductive result (A : Type) : Type :=
| Ok (a : A)
| Raise (e : PyError).

Arguments Ok {A} a.
Arguments Raise {A} e.

Definition bind {A B : Type} (c : result A) (k : A -> result B) : result B :=
  match c with
  | Ok a => k a
  | Raise e => Raise e
  end.

Notation "x <- c ;; k" := (bind c (fun x => k))
  (at level 61, c at next level, right associativity).

(** ** Python arithmetic on exact numbers *)

(** [x > y] on numbers. *)
Definition Qgtb (x y : Q) : bool := negb (Qle_bool x y).

(** [base ** n] for an integer exponent: a zero base cannot be raised to a
    negative power.  Every other power has its exact value; the
    [OverflowError] of a result beyond the range of a double is not
    modelled. *)
Definition py_pow (base : Q) (n : Z) : result Q :=
  if (n <? 0)%Z && Qeq_bool base 0 then Raise ZeroDivisionError
  else Ok (base ^ n).

(** [x / y]: division by zero raises. *)
Definition py_div (x y : Q) : result Q :=
  if Qeq_bool y 0 then Raise ZeroDivisionError else Ok (x / y).

(** [range(lo, hi)]. *)
Definition py_range (lo hi : Z) : list Z :=
  map (fun i => (lo + Z.of_nat i)%Z) (seq 0 (Z.to_nat (hi - lo))).

(** A [dict] with string keys, in insertion order. *)
Definition dict (V : Type) : Type := list (string * V).

Fixpoint dict_find {V : Type} (d : dict V) (k : string) : option V :=
  match d with
  | [] => None
  | (k', v) :: d' => if String.eqb k' k then Some v else dict_find d' k
  end.

(** [d[k]]. *)
Definition dict_get {V : Type} (d : dict V) (k : string) : result V :=
  match dict_find d k with
  | Some v => Ok v
  | None => Raise (KeyError k)
  end.

(** [d.get(k, default)]. *)
Definition dict_get_default {V : Type} (d : dict V) (k : string) (default : V) : V :=
  match dict_find d k with
  | Some v => v
  | None => default
  end.

(** [k in d]. *)
Definition dict_mem {V : Type} (d : dict V) (k : string) : bool :=
  match dict_find d k with
  | Some _ => true
  | None => false
  end.

(** ** Reference tables *)

Definition DEFAULT_RETURNS : dict Q :=
  [ ("single_asset", 0.06);
    ("stocks_kr", 0.08);
    ("stocks_global", 0.10);
    ("reits", 0.05);
    ("bonds", 0.035);
    ("deposits", 0.03);
    ("crypto", 0.15) ]%string.

Definition ASSET_VOLATILITY : dict Q :=
  [ ("stocks_kr", 0.20);
    ("stocks_global", 0.18);
    ("reits", 0.15);
    ("bonds", 0.05);
    ("deposits", 0.01);
    ("crypto", 0.70) ]%string.

Definition RISK_PROFILES : list (string * dict Q) :=
  [ ("conservative",
     [ ("stocks_kr", 0.20); ("stocks_global", 0.05); ("reits", 0.10);
       ("bonds", 0.50); ("deposits", 0.15); ("crypto", 0.00) ]);
    ("moderate",
     [ ("stocks_kr", 0.35); ("stocks_global", 0.15); ("reits", 0.15);
       ("bonds", 0.25); ("deposits", 0.10); ("crypto", 0.00) ]);
    ("aggressive",
     [ ("stocks_kr", 0.40); ("stocks_global", 0.25); ("reits", 0.10);
       ("bonds", 0.15); ("deposits", 0.05); ("crypto", 0.05) ]) ]%string.

(** ** Compounding Calculator: [calculate_future_value] *)

(** Period rate and period count chosen by the frequency selector; any value
    other than ["monthly"] takes the yearly branch. *)
Definition period_rate (annual_rate : Q) (compound_frequency : string) : Q :=
  if String.eqb compound_frequency "monthly" then annual_rate / 12
  else annual_rate.

Definition period_count (years : Z) (compound_frequency : string) : Z :=
  if String.eqb compound_frequency "monthly" then (years * 12)%Z
  else years.

(** The default of the keyword argument [compound_frequency]. *)
Definition default_compound_frequency : string := "monthly".

Definition calculate_future_value
    (principal monthly_payment annual_rate : Q) (years : Z)
    (compound_frequency : string) : result Q :=
  let r := period_rate annual_rate compound_frequency in
  let n := period_count years compound_frequency in
  growth <- py_pow (1 + r) n ;;
  let fv_principal := principal * growth in
  fv_payments <-
    (if Qgtb r 0 then
       growth' <- py_pow (1 + r) n ;;
       factor <- py_div (growth' - 1) r ;;
       Ok (monthly_payment * factor)
     else Ok (monthly_payment * inject_Z n)) ;;
  Ok (fv_principal + fv_payments).

(** ** Year-by-Year Ledger Builder: [generate_year_by_year_data] *)

(** One row of the returned table; the fields are its columns. *)
Record YearRecord : Type := mkYearRecord {
  Year : Z;
  Beginning_Balance : Q;
  Annual_Investment : Q;
  Interest_Earned : Q;
  Ending_Balance : Q;
  Total_Invested : Q;
  Total_Interest : Q
}.

(** The variables the outer loop carries from one year to the next. *)
Record LedgerState : Type := mkLedgerState {
  current_balance : Q;
  total_invested : Q
}.

(** Body of the inner loop, one month. *)
Definition month_step (monthly_payment annual_rate balance : Q) : Q :=
  balance * (1 + annual_rate / 12) + monthly_payment.

(** [for month in range(12)]. *)
Definition compound_year (monthly_payment annual_rate balance : Q) : Q :=
  Nat.iter 12 (month_step monthly_payment annual_rate) balance.

(** Body of the outer loop: the state after the year and the row appended. *)
Definition year_step (monthly_payment annual_rate : Q) (st : LedgerState)
    (year : Z) : LedgerState * YearRecord :=
  let yearly_return := current_balance st * annual_rate in
  let yearly_investment := monthly_payment * 12 in
  let balance := compound_year monthly_payment annual_rate (current_balance st) in
  let invested := total_invested st + yearly_investment in
  (mkLedgerState balance invested,
   mkYearRecord year
     (balance - yearly_return - yearly_investment)
     yearly_investment
     yearly_return
     balance
     invested
     (balance - invested)).

Fixpoint year_loop (monthly_payment annual_rate : Q) (years : list Z)
    (st : LedgerState) : list YearRecord :=
  match years with
  | [] => []
  | year :: rest =>
      let (st', row) := year_step monthly_payment annual_rate st year in
      row :: year_loop monthly_payment annual_rate rest st'
  end.

Definition generate_year_by_year_data
    (principal monthly_payment annual_rate : Q) (years : Z) : list YearRecord :=
  year_loop monthly_payment annual_rate (py_range 1 (years + 1))
    (mkLedgerState principal principal).

(** ** Portfolio Aggregator: [calculate_portfolio_returns] *)

(** A ledger row after the columns ['Asset'] and ['Allocation'] are added. *)
Record PortfolioRow : Type := mkPortfolioRow {
  row_record : YearRecord;
  Asset : string;
  Allocation : Q
}.

(** Body of the loop for one asset with positive weight: the local [fv] and
    the tagged [yearly_data].  The call of [calculate_future_value] passes
    four arguments, so the frequency takes its default. *)
Definition asset_projection (returns : dict Q) (principal monthly_payment : Q)
    (years : Z) (asset : string) (allocation : Q)
    : result (Q * list PortfolioRow) :=
  let asset_principal := principal * allocation in
  let asset_monthly := monthly_payment * allocation in
  asset_return <- dict_get returns asset ;;
  fv <- calculate_future_value asset_principal asset_monthly asset_return years
          default_compound_frequency ;;
  let yearly_data :=
    generate_year_by_year_data asset_principal asset_monthly asset_return years in
  Ok (fv, map (fun row => mkPortfolioRow row asset allocation) yearly_data).

(** [for asset, allocation in allocations.items()]: what every iteration
    that passes the guard computes, in order. *)
Fixpoint portfolio_loop (returns : dict Q) (principal monthly_payment : Q)
    (years : Z) (items : dict Q) : result (list (Q * list PortfolioRow)) :=
  match items with
  | [] => Ok []
  | (asset, allocation) :: rest =>
      if Qgtb allocation 0 then
        step <- asset_projection returns principal monthly_payment years
                  asset allocation ;;
        steps <- portfolio_loop returns principal monthly_payment years rest ;;
        Ok (step :: steps)
      else portfolio_loop returns principal monthly_payment years rest
  end.

(** [fv] is dropped; the frames are concatenated, and no frame at all gives
    the empty table. *)
Definition calculate_portfolio_returns (allocations returns : dict Q)
    (principal monthly_payment : Q) (years : Z) : result (list PortfolioRow) :=
  steps <- portfolio_loop returns principal monthly_payment years allocations ;;
  Ok (List.concat (map snd steps)).

(** ** Risk figures of [update_portfolio_performance] *)

(** Both sums below run [for asset in allocations] and read
    [allocations[asset]]; a dictionary read at one of its own keys cannot
    fail, so the iteration is over the items. *)

(** [sum(allocations[asset] * returns[asset] for asset in allocations)]. *)
Fixpoint weighted_sum (returns : dict Q) (items : dict Q) (acc : Q)
    : result Q :=
  match items with
  | [] => Ok acc
  | (asset, weight) :: rest =>
      ret <- dict_get returns asset ;;
      weighted_sum returns rest (acc + weight * ret)
  end.

Definition weighted_return_of (allocations returns : dict Q) : result Q :=
  weighted_sum returns allocations 0.

(** The sum under [np.sqrt]: over the assets listed in [ASSET_VOLATILITY]. *)
Fixpoint variance_sum (items : dict Q) (acc : Q) : Q :=
  match items with
  | [] => acc
  | (asset, weight) :: rest =>
      if dict_mem ASSET_VOLATILITY asset then
        variance_sum rest
          (acc + weight ^ 2 * dict_get_default ASSET_VOLATILITY asset 0 ^ 2)
      else variance_sum rest acc
  end.

Definition portfolio_variance (allocations : dict Q) : Q :=
  variance_sum allocations 0.

(** Division of reals.  A zero divisor is kept as an exception, so that a
    division the guard fails to protect would show. *)
Definition py_div_R (x y : R) : result R :=
  if Req_dec_T y 0%R then Raise ZeroDivisionError else Ok (x / y)%R.

(** [(weighted_return - 0.03) / portfolio_volatility
     if portfolio_volatility > 0 else 0]. *)
Definition sharpe_ratio_of (weighted_return : Q) (portfolio_volatility : R)
    : result R :=
  if Rlt_dec 0 portfolio_volatility then
    py_div_R (Q2R weighted_return - 0.03)%R portfolio_volatility
  else Ok 0%R.

Record RiskMetrics : Type := mkRiskMetrics {
  portfolio_volatility : R;
  sharpe_ratio : R;
  max_drawdown : R
}.

(** The risk figures, from the weighted return computed just before. *)
Definition risk_metrics (allocations : dict Q) (weighted_return : Q)
    : result RiskMetrics :=
  let volatility := sqrt (Q2R (portfolio_variance allocations)) in
  sharpe <- sharpe_ratio_of weighted_return volatility ;;
  Ok (mkRiskMetrics volatility sharpe (volatility * 2)%R).

(** ** The portfolio callback: [update_portfolio_performance]

    The callbacks are embedded up to the numbers they hand to the page; the
    construction of figures and HTML is left out, except for the dictionary
    lookups it makes, which can raise. *)

Definition ASSET_NAMES : dict string :=
  [ ("stocks_kr", "Korean Stocks");
    ("stocks_global", "Global Stocks");
    ("reits", "REITs");
    ("bonds", "Bonds");
    ("deposits", "Deposits/MMF");
    ("crypto", "Cryptocurrency") ]%string.

Definition COLORS : dict string :=
  [ ("principal", "#3498db");
    ("interest", "#2ecc71");
    ("stocks_kr", "#e74c3c");
    ("stocks_global", "#f39c12");
    ("reits", "#9b59b6");
    ("bonds", "#1abc9c");
    ("deposits", "#34495e");
    ("crypto", "#e67e22") ]%string.

(** The lookups of the bar chart, [ASSET_NAMES[asset]] then [COLORS[asset]],
    for the assets that occur in the table. *)
Fixpoint chart_traces (assets : list string) : result (list (string * string)) :=
  match assets with
  | [] => Ok []
  | asset :: rest =>
      name <- dict_get ASSET_NAMES asset ;;
      color <- dict_get COLORS asset ;;
      traces <- chart_traces rest ;;
      Ok ((name, color) :: traces)
  end.

(** [frame[column].sum()]. *)
Definition column_sum (column : YearRecord -> Q) (frame : list PortfolioRow) : Q :=
  fold_left (fun acc row => acc + column (row_record row)) frame 0.

Record PortfolioSummary : Type := mkPortfolioSummary {
  summary_total_value : Q;
  summary_total_invested : Q;
  summary_total_returns : Q;
  summary_weighted_return : Q
}.

Inductive PerformanceView : Type :=
| NoData
| Performance (summary : PortfolioSummary) (risk : RiskMetrics).

Definition is_empty {A : Type} (l : list A) : bool :=
  match l with
  | [] => true
  | _ :: _ => false
  end.

(** The table the callback computes: amounts are entered in units of
    10,000 won and the returns are [DEFAULT_RETURNS]. *)
Definition performance_portfolio (allocations : dict Q) (initial monthly : Q)
    (years : Z) : result (list PortfolioRow) :=
  let returns := DEFAULT_RETURNS in
  let initial_amount := initial * 10000 in
  let monthly_amount := monthly * 10000 in
  calculate_portfolio_returns allocations returns initial_amount monthly_amount
    years.

Definition update_portfolio_performance (allocations : dict Q)
    (initial monthly : Q) (years : Z) (rebalancing : string)
    (lifecycle : list string) : result PerformanceView :=
  if is_empty allocations then Ok NoData
  else
    let returns := DEFAULT_RETURNS in
    portfolio_df <- performance_portfolio allocations initial monthly years ;;
    if is_empty portfolio_df then Ok NoData
    else
      _ <- chart_traces (map Asset portfolio_df) ;;
      let final_year_data :=
        filter (fun row => (Year (row_record row) =? years)%Z) portfolio_df in
      let total_value := column_sum Ending_Balance final_year_data in
      let total_invested := column_sum Total_Invested final_year_data in
      let total_returns := column_sum Total_Interest final_year_data in
      weighted_return <- weighted_return_of allocations returns ;;
      risk <- risk_metrics allocations weighted_return ;;
      Ok (Performance
            (mkPortfolioSummary total_value total_invested total_returns
               weighted_return)
            risk).

(** ** The scenario callback: [update_scenario_analysis] *)

Record Scenario : Type := mkScenario {
  name : string;
  multiplier : Q;
  volatility : Q
}.

Definition scenario_adjustments : dict Scenario :=
  [ ("scenario-bull", mkScenario "Bull Market" 1.5 1.2);
    ("scenario-bear", mkScenario "Bear Market" 0.3 1.8);
    ("scenario-normal", mkScenario "Normal Market" 1.0 1.0) ]%string.

(** [{k: v * scenario["multiplier"] for k, v in DEFAULT_RETURNS.items()}]. *)
Definition adjusted_returns (scenario : Scenario) : dict Q :=
  map (fun kv => (fst kv, snd kv * multiplier scenario)) DEFAULT_RETURNS.

(** The table the callback computes for a scenario. *)
Definition scenario_portfolio (scenario : Scenario) (allocations : dict Q)
    (initial monthly : Q) (years : Z) : result (list PortfolioRow) :=
  let initial_amount := initial * 10000 in
  let monthly_amount := monthly * 10000 in
  calculate_portfolio_returns allocations (adjusted_returns scenario)
    initial_amount monthly_amount years.

Definition risk_level (scenario : Scenario) : string :=
  if Qgtb (volatility scenario) 1.5 then "High"
  else if Qgtb (volatility scenario) 1 then "Moderate"
  else "Normal".

Inductive ScenarioView : Type :=
| ClickPrompt
| SelectPrompt
| NoDataAvailable
| ScenarioResult (title : string) (total_value total_invested : Q)
    (risk : string).

(** [triggered] is the id of the button that fired, if any. *)
Definition update_scenario_analysis (triggered : option string)
    (allocations : dict Q) (initial monthly : Q) (years : Z)
    : result ScenarioView :=
  match triggered with
  | None => Ok ClickPrompt
  | Some button_id =>
      if is_empty allocations then Ok ClickPrompt
      else
        match dict_find scenario_adjustments button_id with
        | None => Ok SelectPrompt
        | Some scenario =>
            portfolio_df <- scenario_portfolio scenario allocations
                              initial monthly years ;;
            if is_empty portfolio_df then Ok NoDataAvailable
            else
              let final_year_data :=
                filter (fun row => (Year (row_record row) =? years)%Z)
                  portfolio_df in
              Ok (ScenarioResult (name scenario)
                    (column_sum Ending_Balance final_year_data)
                    (column_sum Total_Invested final_year_data)
                    (risk_level scenario))
        end
  end.

(** ** Values of the page's input components

    A callback receives the components named in its [Input] and [State]
    lists and nothing else. *)

Record PageInputs : Type := mkPageInputs {
  compound_frequency_value : string;
  portfolio_allocations_store : dict Q;
  portfolio_initial : Q;
  portfolio_monthly : Q;
  portfolio_years : Z;
  rebalancing_period : string;
  lifecycle_investing : list string
}.

Definition set_compound_frequency (choice : string) (page : PageInputs)
    : PageInputs :=
  mkPageInputs choice
    (portfolio_allocations_store page) (portfolio_initial page)
    (portfolio_monthly page) (portfolio_years page)
    (rebalancing_period page) (lifecycle_investing page).

Definition portfolio_mode (page : PageInputs) : result PerformanceView :=
  update_portfolio_performance
    (portfolio_allocations_store page) (portfolio_initial page)
    (portfolio_monthly page) (portfolio_years page)
    (rebalancing_period page) (lifecycle_investing page).

Definition scenario_mode (triggered : option string) (page : PageInputs)
    : result ScenarioView :=
  update_scenario_analysis triggered
    (portfolio_allocations_store page) (portfolio_initial page)
    (portfolio_monthly page) (portfolio_years page).

(** ** The allocation callbacks *)

(** [int(x)]: truncation toward zero. *)
Definition py_int (x : Q) : Z := Z.quot (Qnum x) (Zpos (Qden x)).

(** [[d[k] for k in keys]]. *)
Fixpoint lookup_all {V : Type} (d : dict V) (keys : list string)
    : result (list V) :=
  match keys with
  | [] => Ok []
  | k :: rest =>
      v <- dict_get d k ;;
      vs <- lookup_all d rest ;;
      Ok (v :: vs)
  end.

(** [update_sliders_by_profile]: the value and the [disabled] flag of the six
    sliders, in the order of the outputs. *)
Definition update_sliders_by_profile (risk_profile : string)
    : result (list (Z * bool)) :=
  if String.eqb risk_profile "custom" then
    Ok [(35, false); (15, false); (15, false); (25, false); (10, false);
        (0, false)]%Z
  else
    profile <- dict_get RISK_PROFILES risk_profile ;;
    weights <- lookup_all profile
                 ["stocks_kr"; "stocks_global"; "reits"; "bonds"; "deposits";
                  "crypto"]%string ;;
    Ok (map (fun weight => (py_int (weight * 100), true)) weights).

(** The warning line of [update_allocation_labels]. *)
Inductive AllocationWarning : Type :=
| AllocationShouldBe100 (total : Z)
| AllocationIs100.

(** [update_allocation_labels]: the warning and the stored allocation; the
    six label texts repeat the inputs and are left out. *)
Definition update_allocation_labels
    (stocks_kr stocks_global reits bonds deposits crypto : Z)
    : AllocationWarning * dict Q :=
  let total :=
    (stocks_kr + stocks_global + reits + bonds + deposits + crypto)%Z in
  let warning :=
    if negb (total =? 100)%Z then AllocationShouldBe100 total
    else AllocationIs100 in
  let allocations :=
    [ ("stocks_kr", inject_Z stocks_kr / 100);
      ("stocks_global", inject_Z stocks_global / 100);
      ("reits", inject_Z reits / 100);
      ("bonds", inject_Z bonds / 100);
      ("deposits", inject_Z deposits / 100);
      ("crypto", inject_Z crypto / 100) ]%string in
  (warning, allocations).

(** The data of the pie chart. *)
Record Pie : Type := mkPie {
  labels : list string;
  values : list Q;
  colors : list string
}.

(** [update_allocation_chart]: [None] is the empty figure. *)
Definition update_allocation_chart (allocations : dict Q)
    : result (option Pie) :=
  if is_empty allocations then Ok None
  else
    let filtered_allocations :=
      filter (fun item => Qgtb (snd item) 0) allocations in
    if is_empty filtered_allocations then Ok None
    else
      labels <- lookup_all ASSET_NAMES (map fst filtered_allocations) ;;
      let values := map (fun item => snd item * 100) filtered_allocations in
      colors <- lookup_all COLORS (map fst filtered_allocations) ;;
      Ok (Some (mkPie labels values colors)).

(** ** The single-asset callback: [update_simple_investment] *)

(** What the callback can raise: an exception of the arithmetic or of a
    lookup, or the [IndexError] of [df.iloc[-1]] on an empty table. *)
Inductive PageError : Type :=
| IndexError
| Builtin (e : PyError).

(** [max(a, b)]: the first argument unless the second is greater. *)
Definition py_max (a b : Q) : Q := if Qgtb b a then b else a.

(** The tax rule applied to the ['Total Interest'] column. *)
Definition interest_tax (x : Q) : Q :=
  if Qgtb x 20000000 then py_max 0 ((x - 20000000) * 0.154) else 0.

(** A ledger row with the columns ['Tax'] and ['After Tax Balance']. *)
Record TaxedRow : Type := mkTaxedRow {
  taxed_record : YearRecord;
  Tax : Q;
  After_Tax_Balance : Q
}.

Definition apply_tax (row : YearRecord) : TaxedRow :=
  let tax := interest_tax (Total_Interest row) in
  mkTaxedRow row tax (Ending_Balance row - tax).

(** [frame.iloc[-1]]. *)
Definition iloc_last {A : Type} (frame : list A) : PageError + A :=
  match rev frame with
  | [] => inl IndexError
  | row :: _ => inr row
  end.

(** [flag in options]. *)
Definition has_option (flag : string) (options : list string) : bool :=
  existsb (String.eqb flag) options.

(** The rate the ledger is built with. *)
Definition simple_rate (annual_return : Q) (options : list string) : Q :=
  let rate := annual_return / 100 in
  if has_option "inflation" options then rate - 0.025 else rate.

Record SimpleSummary : Type := mkSimpleSummary {
  simple_final_value : Q;
  simple_total_invested : Q;
  simple_total_interest : Q
}.

(** The callback up to the three amounts of its summary.  The ratios shown
    with them divide table entries, which yields infinities rather than
    exceptions, and are left out. *)
Definition update_simple_investment (initial monthly annual_return : Q)
    (years : Z) (options : list string) (compound_freq : string)
    : PageError + SimpleSummary :=
  let initial_amount := initial * 10000 in
  let monthly_amount := monthly * 10000 in
  let rate := simple_rate annual_return options in
  let df := generate_year_by_year_data initial_amount monthly_amount rate years in
  let final_value :=
    if has_option "tax" options then
      if is_empty df then inl (Builtin (KeyError "Total Interest"))
      else
        match iloc_last (map apply_tax df) with
        | inl e => inl e
        | inr row => inr (After_Tax_Balance row)
        end
    else
      match iloc_last df with
      | inl e => inl e
      | inr row => inr (Ending_Balance row)
      end in
  match final_value with
  | inl e => inl e
  | inr final_value =>
      match iloc_last df with
      | inl e => inl e
      | inr row =>
          inr (mkSimpleSummary final_value (Total_Invested row)
                 (Total_Interest row))
      end
  end.

(** ** The formulas of the specification *)

(** Follows the specification (4.1): the ordinary-annuity future value, whose
    contribution term is [periodicContribution * n] when [r == 0]. *)
Definition annuity_future_value (principal periodicContribution r : Q) (n : Z)
    : Q :=
  if Qeq_bool r 0 then
    principal * (1 + r) ^ n + periodicContribution * inject_Z n
  else
    principal * (1 + r) ^ n + periodicContribution * (((1 + r) ^ n - 1) / r).

(** Follows the specification (4.4): the Sharpe ratio, defined as 0 when the
    portfolio volatility is 0. *)
Definition sharpe_spec (weighted_return : Q) (portfolio_volatility : R) : R :=
  if Req_dec_T portfolio_volatility 0%R then 0%R
  else ((Q2R weighted_return - 0.03) / portfolio_volatility)%R.

(** Follows the specification (4.4): the sum over the assets of
    weight^2 * volatility^2, an asset without a listed volatility adding
    nothing. *)
Definition squared_weights_sum (allocations : dict Q) : Q :=
  fold_right
    (fun item acc =>
       snd item ^ 2 * dict_get_default ASSET_VOLATILITY (fst item) 0 ^ 2 + acc)
    0 allocations.

(** Follows the specification (4.2, step 2): the interest of a year is what
    the balance gained beyond the contributions. *)
Definition interest_spec (opening closing contributions : Q) : Q :=
  closing - opening - contributions.

(** The balance the outer loop holds when it enters year [k + 1]. *)
Definition opening_balance (principal monthly_payment annual_rate : Q)
    (k : nat) : Q :=
  Nat.iter k (compound_year monthly_payment annual_rate) principal.

(** The value [calculate_future_value] computes when it returns. *)
Definition future_value_of (principal monthly_payment r : Q) (n : Z) : Q :=
  principal * (1 + r) ^ n +
  (if Qgtb r 0 then monthly_payment * (((1 + r) ^ n - 1) / r)
   else monthly_payment * inject_Z n).

(** The running total of contributions when the loop enters year [k + 1]. *)
Definition invested_after (principal monthly_payment : Q) (k : nat) : Q :=
  Nat.iter k (fun total => total + monthly_payment * 12) principal.

Definition state_after (principal monthly_payment annual_rate : Q) (k : nat)
    : LedgerState :=
  mkLedgerState (opening_balance principal monthly_payment annual_rate k)
    (invested_after principal monthly_payment k).

(** The row the loop appends in year [k + 1]. *)
Definition row_of_year (principal monthly_payment annual_rate : Q) (k : nat)
    : YearRecord :=
  snd (year_step monthly_payment annual_rate
         (state_after principal monthly_payment annual_rate k)
         (1 + Z.of_nat k)%Z).

(** The sum of the interest of the first [k] years, each year's interest
    taken as the specification defines it. *)
Fixpoint spec_interest_sum (principal monthly_payment annual_rate : Q)
    (k : nat) : Q :=
  match k with
  | O => 0
  | S k' =>
      spec_interest_sum principal monthly_payment annual_rate k' +
      interest_spec
        (opening_balance principal monthly_payment annual_rate k')
        (opening_balance principal monthly_payment annual_rate (S k'))
        (monthly_payment * 12)
  end.

(** Running sums of a column, one per row. *)
Fixpoint running_sum (column : YearRecord -> Q) (acc : Q)
    (ledger : list YearRecord) : list Q :=
  match ledger with
  | [] => []
  | row :: rest => (acc + column row) :: running_sum column (acc + column row) rest
  end.

(** Rows and ledgers equal as numbers. *)
Definition YearRecord_eq (a b : YearRecord) : Prop :=
  Year a = Year b /\
  Beginning_Balance a == Beginning_Balance b /\
  Annual_Investment a == Annual_Investment b /\
  Interest_Earned a == Interest_Earned b /\
  Ending_Balance a == Ending_Balance b /\
  Total_Invested a == Total_Invested b /\
  Total_Interest a == Total_Interest b.

Definition Ledger_eq : list YearRecord -> list YearRecord -> Prop :=
  Forall2 YearRecord_eq.

(** Two outcomes agree: the same exception, or related values. *)
Definition result_rel {A : Type} (rel : A -> A -> Prop) (a b : result A) : Prop :=
  match a, b with
  | Ok x, Ok y => rel x y
  | Raise e, Raise e' => e = e'
  | _, _ => False
  end.

Definition LedgerState_eq (a b : LedgerState) : Prop :=
  current_balance a == current_balance b /\
  total_invested a == total_invested b.

Definition PortfolioRow_eq (a b : PortfolioRow) : Prop :=
  YearRecord_eq (row_record a) (row_record b) /\
  Asset a = Asset b /\
  Allocation a == Allocation b.

(** Portfolio tables equal field for field. *)
Definition Portfolio_eq : list PortfolioRow -> list PortfolioRow -> Prop :=
  Forall2 PortfolioRow_eq.

(** What two runs of the loop body must agree on. *)
Definition step_eq (a b : Q * list PortfolioRow) : Prop :=
  fst a == fst b /\ Portfolio_eq (snd a) (snd b).

(** Dictionaries with the same keys in the same order and equal numbers. *)
Definition dict_eq : dict Q -> dict Q -> Prop :=
  Forall2 (fun kv kv' => fst kv = fst kv' /\ snd kv == snd kv').

(** Row [a] is row [b] with every amount multiplied by [w]. *)
Definition YearRecord_scaled (w : Q) (a b : YearRecord) : Prop :=
  Year a = Year b /\
  Beginning_Balance a == w * Beginning_Balance b /\
  Annual_Investment a == w * Annual_Investment b /\
  Interest_Earned a == w * Interest_Earned b /\
  Ending_Balance a == w * Ending_Balance b /\
  Total_Invested a == w * Total_Invested b /\
  Total_Interest a == w * Total_Interest b.

(** The items the aggregator's loop does not skip. *)
Definition positive_items (allocations : dict Q) : dict Q :=
  filter (fun item => Qgtb (snd item) 0) allocations.

(** The sum of the weights that are positive. *)
Definition positive_weight_sum (allocations : dict Q) : Q :=
  fold_right (fun item acc => snd item + acc) 0 (positive_items allocations).

(** The tagged ledger of one item, at the return listed for its asset. *)
Definition asset_frame (returns : dict Q) (principal monthly_payment : Q)
    (years : Z) (item : string * Q) : list PortfolioRow :=
  map (fun row => mkPortfolioRow row (fst item) (snd item))
    (generate_year_by_year_data (principal * snd item)
       (monthly_payment * snd item)
       (dict_get_default returns (fst item) 0) years).

(** The rows of the last year: [frame[frame['Year'] == years]]. *)
Definition final_year_rows (years : Z) (frame : list PortfolioRow)
    : list PortfolioRow :=
  filter (fun row => (Year (row_record row) =? years)%Z) frame.

(** The weighted sum of the listed returns. *)
Definition weighted_returns_sum (allocations returns : dict Q) : Q :=
  fold_right
    (fun item acc => snd item * dict_get_default returns (fst item) 0 + acc)
    0 allocations.

(** The sum of all the weights. *)
Definition weight_sum (allocations : dict Q) : Q :=
  fold_right (fun item acc => snd item + acc) 0 allocations.

(** The sum of a list of numbers. *)
Definition list_sum_Q (xs : list Q) : Q := fold_right Qplus 0 xs.

(** * Properties *)

(** ** Arithmetic *)

Lemma Qgtb_true (x y : Q) : Qgtb x y = true <-> y < x.
Proof.
  unfold Qgtb. rewrite negb_true_iff.
  split; intro H.
  - apply Qnot_le_lt. intro Hle. apply Qle_bool_iff in Hle. congruence.
  - destruct (Qle_bool x y) eqn:E; [|reflexivity].
    apply Qle_bool_iff in E. exfalso. apply (Qlt_not_le _ _ H E).
Qed.

Lemma Qgtb_false (x y : Q) : Qgtb x y = false <-> x <= y.
Proof.
  unfold Qgtb. rewrite negb_false_iff. apply Qle_bool_iff.
Qed.

Lemma Qeq_bool_false (x y : Q) : Qeq_bool x y = false <-> ~ x == y.
Proof.
  split; intro H.
  - intro E. apply Qeq_bool_iff in E. congruence.
  - destruct (Qeq_bool x y) eqn:E; [|reflexivity].
    apply Qeq_bool_iff in E. contradiction.
Qed.

Lemma py_div_ok (x y : Q) : ~ y == 0 -> py_div x y = Ok (x / y).
Proof.
  intros H. unfold py_div. now apply Qeq_bool_false in H; rewrite H.
Qed.

(** ** The Compounding Calculator, outcome by outcome *)

(** [calculate_future_value] looks at nothing but the rate and the period
    count: it raises [ZeroDivisionError] when a zero growth base meets a
    negative exponent and returns [future_value_of] otherwise. *)
Lemma calculate_future_value_eq (principal monthly_payment annual_rate : Q)
    (years : Z) (compound_frequency : string) :
  let r := period_rate annual_rate compound_frequency in
  let n := period_count years compound_frequency in
  calculate_future_value principal monthly_payment annual_rate years
    compound_frequency =
  if (n <? 0)%Z && Qeq_bool (1 + r) 0 then Raise ZeroDivisionError
  else Ok (future_value_of principal monthly_payment r n).
Proof.
  intros r n. unfold calculate_future_value, future_value_of.
  fold r n. unfold py_pow.
  destruct ((n <? 0)%Z && Qeq_bool (1 + r) 0) eqn:E; simpl; [reflexivity|].
  destruct (Qgtb r 0) eqn:Er; simpl; [|reflexivity].
  apply Qgtb_true in Er.
  rewrite py_div_ok; [reflexivity|].
  intro H. rewrite H in Er. apply (Qlt_irrefl 0 Er).
Qed.

Lemma future_value_of_positive_rate (principal monthly_payment r : Q) (n : Z) :
  0 < r ->
  future_value_of principal monthly_payment r n ==
  annuity_future_value principal monthly_payment r n.
Proof.
  intros Hr. unfold future_value_of, annuity_future_value.
  assert (Hg : Qgtb r 0 = true) by now apply Qgtb_true.
  assert (Hz : Qeq_bool r 0 = false).
  { apply Qeq_bool_false. intro E. rewrite E in Hr. apply (Qlt_irrefl 0 Hr). }
  rewrite Hg, Hz. reflexivity.
Qed.

Lemma future_value_of_nonpositive_rate (principal monthly_payment r : Q) (n : Z) :
  r <= 0 ->
  future_value_of principal monthly_payment r n =
  principal * (1 + r) ^ n + monthly_payment * inject_Z n.
Proof.
  intros Hr. unfold future_value_of.
  apply Qgtb_false in Hr. now rewrite Hr.
Qed.


(** ** The ledger, row by row *)

Section Ledger.

Variables principal monthly_payment annual_rate : Q.

Lemma py_range_from_1 (years : Z) :
  py_range 1 (years + 1) =
  map (fun i => (1 + Z.of_nat i)%Z) (seq 0 (Z.to_nat years)).
Proof.
  unfold py_range. now replace (years + 1 - 1)%Z with years by lia.
Qed.

Lemma year_step_state (k : nat) (year : Z) :
  fst (year_step monthly_payment annual_rate
         (state_after principal monthly_payment annual_rate k) year) =
  state_after principal monthly_payment annual_rate (S k).
Proof. reflexivity. Qed.

Lemma year_loop_rows (len start : nat) :
  year_loop monthly_payment annual_rate
    (map (fun i => (1 + Z.of_nat i)%Z) (seq start len))
    (state_after principal monthly_payment annual_rate start) =
  map (row_of_year principal monthly_payment annual_rate) (seq start len).
Proof.
  revert start. induction len as [|len IH]; intros start; [reflexivity|].
  cbn [seq map year_loop].
  destruct (year_step monthly_payment annual_rate
              (state_after principal monthly_payment annual_rate start)
              (1 + Z.of_nat start)%Z) as [st' row] eqn:E.
  f_equal.
  - unfold row_of_year. now rewrite E.
  - rewrite <- IH. f_equal.
    rewrite <- (year_step_state start (1 + Z.of_nat start)%Z).
    now rewrite E.
Qed.

(** The ledger has one row per year of a positive horizon and none
    otherwise; row [k] is computed from the balance the loop holds after
    [k] years. *)
Lemma ledger_rows (years : Z) :
  generate_year_by_year_data principal monthly_payment annual_rate years =
  map (row_of_year principal monthly_payment annual_rate)
    (seq 0 (Z.to_nat years)).
Proof.
  unfold generate_year_by_year_data. rewrite py_range_from_1.
  apply (year_loop_rows (Z.to_nat years) 0).
Qed.


(** *** Closed form of the simulated balance *)

Lemma Qpower_succ (a : Q) (j : nat) :
  a ^ Z.of_nat (S j) == a ^ Z.of_nat j * a.
Proof.
  rewrite Nat2Z.inj_succ. unfold Z.succ.
  rewrite Qpower_plus' by lia. now rewrite Qpower_1_r.
Qed.

(** [j] monthly steps from balance [b] give the annuity value for [j]
    periods, whatever the sign of the rate. *)
Lemma months_closed_form (b : Q) (j : nat) :
  Nat.iter j (month_step monthly_payment annual_rate) b ==
  annuity_future_value b monthly_payment (annual_rate / 12) (Z.of_nat j).
Proof.
  unfold annuity_future_value.
  destruct (Qeq_bool (annual_rate / 12) 0) eqn:Er.
  - apply Qeq_bool_iff in Er.
    induction j as [|j IH].
    + change (Nat.iter 0 (month_step monthly_payment annual_rate) b) with b.
      cbn [Z.of_nat]. rewrite Qpower_0_r.
      unfold inject_Z. ring.
    + rewrite Nat.iter_succ. unfold month_step at 1. rewrite IH.
      rewrite Qpower_succ, Nat2Z.inj_succ. unfold Z.succ.
      rewrite inject_Z_plus, Er. ring.
  - apply Qeq_bool_false in Er.
    assert (Hrate : ~ annual_rate == 0).
    { intro H. apply Er. now rewrite H. }
    induction j as [|j IH].
    + change (Nat.iter 0 (month_step monthly_payment annual_rate) b) with b.
      cbn [Z.of_nat]. rewrite Qpower_0_r.
      field. exact Hrate.
    + rewrite Nat.iter_succ. unfold month_step at 1. rewrite IH.
      rewrite Qpower_succ. field. exact Hrate.
Qed.

Lemma opening_balance_months (k : nat) :
  opening_balance principal monthly_payment annual_rate k =
  Nat.iter (12 * k) (month_step monthly_payment annual_rate) principal.
Proof.
  unfold opening_balance. induction k as [|k IH].
  - now rewrite Nat.mul_0_r.
  - rewrite Nat.iter_succ, IH. unfold compound_year.
    replace (12 * S k)%nat with (12 + 12 * k)%nat by lia.
    now rewrite Nat.iter_add.
Qed.

(** What the ledger's balance is after [k] years: the annuity formula with
    the monthly rate and [12 * k] periods, for positive, zero and negative
    rates alike. *)
Lemma opening_balance_closed_form (k : nat) :
  opening_balance principal monthly_payment annual_rate k ==
  annuity_future_value principal monthly_payment (annual_rate / 12)
    (Z.of_nat k * 12).
Proof.
  rewrite opening_balance_months, months_closed_form.
  now replace (Z.of_nat (12 * k)) with (Z.of_nat k * 12)%Z by lia.
Qed.

Lemma row_of_year_fields (k : nat) :
  let opening := opening_balance principal monthly_payment annual_rate k in
  let closing := opening_balance principal monthly_payment annual_rate (S k) in
  let row := row_of_year principal monthly_payment annual_rate k in
  Year row = (1 + Z.of_nat k)%Z /\
  Annual_Investment row = monthly_payment * 12 /\
  Interest_Earned row = opening * annual_rate /\
  Ending_Balance row = closing /\
  Beginning_Balance row =
    closing - opening * annual_rate - monthly_payment * 12 /\
  Total_Invested row = invested_after principal monthly_payment (S k) /\
  Total_Interest row =
    closing - invested_after principal monthly_payment (S k).
Proof. repeat split. Qed.

(** The true interest of the years (closing - opening - contributions, as the
    specification defines it) does add up to the ['Total Interest'] column. *)
Lemma opening_minus_invested (k : nat) :
  opening_balance principal monthly_payment annual_rate k -
  invested_after principal monthly_payment k ==
  spec_interest_sum principal monthly_payment annual_rate k.
Proof.
  induction k as [|k IH].
  - change (principal - principal == 0). ring.
  - cbn [spec_interest_sum]. rewrite <- IH.
    unfold interest_spec, invested_after. rewrite (Nat.iter_succ k). ring.
Qed.

Lemma total_interest_is_sum_of_spec_interest (k : nat) :
  Total_Interest (row_of_year principal monthly_payment annual_rate k) ==
  spec_interest_sum principal monthly_payment annual_rate (S k).
Proof.
  rewrite <- opening_minus_invested. reflexivity.
Qed.

(** The columns of a row reconcile with each other:
    ['Ending Balance'] = ['Beginning Balance'] + ['Annual Investment'] +
    ['Interest Earned']. *)
Lemma row_columns_reconcile (k : nat) :
  let row := row_of_year principal monthly_payment annual_rate k in
  Ending_Balance row ==
  Beginning_Balance row + Annual_Investment row + Interest_Earned row.
Proof.
  cbv zeta. unfold row_of_year, year_step. cbn [snd Ending_Balance
    Beginning_Balance Annual_Investment Interest_Earned]. ring.
Qed.

End Ledger.

(** For a positive rate and monthly compounding the calculator and the
    ledger agree on the final balance. *)
Lemma calculator_matches_ledger_positive_rate
    (principal monthly_payment annual_rate : Q) (years : Z) :
  0 < annual_rate -> (0 <= years)%Z ->
  exists fv,
    calculate_future_value principal monthly_payment annual_rate years
      "monthly" = Ok fv /\
    fv == opening_balance principal monthly_payment annual_rate
            (Z.to_nat years).
Proof.
  intros Hrate Hyears.
  rewrite calculate_future_value_eq.
  change (period_rate annual_rate "monthly") with (annual_rate / 12).
  change (period_count years "monthly") with (years * 12)%Z.
  replace (years * 12 <? 0)%Z with false by (symmetry; apply Z.ltb_ge; lia).
  cbn [andb]. eexists. split; [reflexivity|].
  assert (Hr : 0 < annual_rate / 12).
  { apply Qlt_shift_div_l; [reflexivity|]. now rewrite Qmult_0_l. }
  rewrite future_value_of_positive_rate by exact Hr.
  rewrite opening_balance_closed_form.
  now rewrite Z2Nat.id by exact Hyears.
Qed.

(** Closed facts about numbers are settled by evaluation. *)
Ltac by_evaluation :=
  vm_compute; first [reflexivity | discriminate | (intro; discriminate)].

(** For a rate that is not negative the calculator returns the annuity
    value of the specification. *)
Lemma calculate_future_value_nonnegative_rate
    (principal monthly_payment annual_rate : Q) (years : Z)
    (compound_frequency : string) :
  0 <= period_rate annual_rate compound_frequency -> (0 <= years)%Z ->
  exists fv,
    calculate_future_value principal monthly_payment annual_rate years
      compound_frequency = Ok fv /\
    fv == annuity_future_value principal monthly_payment
            (period_rate annual_rate compound_frequency)
            (period_count years compound_frequency).
Proof.
  intros Hr Hyears. rewrite calculate_future_value_eq.
  assert (Hn : (period_count years compound_frequency <? 0)%Z = false).
  { apply Z.ltb_ge. unfold period_count.
    destruct (String.eqb compound_frequency "monthly"); lia. }
  rewrite Hn. cbn [andb]. eexists. split; [reflexivity|].
  apply Qle_lt_or_eq in Hr. destruct Hr as [Hpos|Hzero].
  - now apply future_value_of_positive_rate.
  - rewrite future_value_of_nonpositive_rate
      by (rewrite <- Hzero; apply Qle_refl).
    unfold annuity_future_value.
    assert (Hb : Qeq_bool (period_rate annual_rate compound_frequency) 0 = true)
      by (apply Qeq_bool_iff; now symmetry).
    now rewrite Hb.
Qed.

(** Below zero it returns the growth of the principal plus the bare sum of
    the payments. *)
Lemma calculate_future_value_negative_rate
    (principal monthly_payment annual_rate : Q) (years : Z)
    (compound_frequency : string) :
  period_rate annual_rate compound_frequency < 0 -> (0 <= years)%Z ->
  calculate_future_value principal monthly_payment annual_rate years
    compound_frequency =
  Ok (principal *
        (1 + period_rate annual_rate compound_frequency) ^
          period_count years compound_frequency +
      monthly_payment * inject_Z (period_count years compound_frequency)).
Proof.
  intros Hr Hyears. rewrite calculate_future_value_eq.
  assert (Hn : (period_count years compound_frequency <? 0)%Z = false).
  { apply Z.ltb_ge. unfold period_count.
    destruct (String.eqb compound_frequency "monthly"); lia. }
  rewrite Hn. cbn [andb].
  now rewrite future_value_of_nonpositive_rate by now apply Qlt_le_weak.
Qed.

(** At -12% a year the ledger's closing balance is the annuity value for
    rate -1% and 12 periods, and the calculator's result is another
    number. *)
Example calculator_leaves_ledger_at_negative_rate :
  exists fv row,
    calculate_future_value 1000 100 (-0.12) 1 "monthly" = Ok fv /\
    generate_year_by_year_data 1000 100 (-0.12) 1 = [row] /\
    Ending_Balance row == annuity_future_value 1000 100 (-0.01) 12 /\
    ~ fv == Ending_Balance row.
Proof.
  do 2 eexists. split; [reflexivity|]. split; [reflexivity|].
  split; by_evaluation.
Qed.



(** ** Worked figures *)

(** The moderate profile has weighted expected return
    0.35 * 0.08 + 0.15 * 0.10 + 0.15 * 0.05 + 0.25 * 0.035 + 0.10 * 0.03,
    which is 6.225%. *)
Example moderate_weighted_return :
  exists moderate weighted_return,
    dict_find RISK_PROFILES "moderate" = Some moderate /\
    weighted_return_of moderate DEFAULT_RETURNS = Ok weighted_return /\
    weighted_return ==
      0.35 * 0.08 + 0.15 * 0.10 + 0.15 * 0.05 + 0.25 * 0.035 + 0.10 * 0.03 /\
    weighted_return == 0.06225.
Proof.
  do 2 eexists. split; [reflexivity|]. split; [reflexivity|].
  split; by_evaluation.
Qed.

(** Its variance is the quadratic form of the weights and volatilities. *)
Example moderate_variance :
  exists moderate,
    dict_find RISK_PROFILES "moderate" = Some moderate /\
    portfolio_variance moderate ==
      0.35 ^ 2 * 0.20 ^ 2 + 0.15 ^ 2 * 0.18 ^ 2 + 0.15 ^ 2 * 0.15 ^ 2 +
      0.25 ^ 2 * 0.05 ^ 2 + 0.10 ^ 2 * 0.01 ^ 2.
Proof.
  eexists. split; [reflexivity|]. by_evaluation.
Qed.

(** Principal 10,000,000, 1,140,000 a month, 6% over 20 years, monthly. *)
Example twenty_year_plan :
  exists fv,
    calculate_future_value 10000000 1140000 0.06 20 "monthly" = Ok fv /\
    fv == 10000000 * 1.005 ^ 240 +
          1140000 * ((1.005 ^ 240 - 1) / 0.005).
Proof.
  eexists. split; [reflexivity|]. by_evaluation.
Qed.

(** ** Claims about the Compounding Calculator *)



(** C1 (the code departs from the claim).  At a negative rate the calculator
    takes the fallback [monthly_payment * n] meant for [r == 0]: with
    principal 1000, payment 100, rate -10% compounded yearly for 2 years it
    returns 1010, where the annuity formula gives 1000. *)
Theorem negative_rate_takes_zero_rate_fallback :
  exists fv,
    calculate_future_value 1000 100 (-0.10) 2 "yearly" = Ok fv /\
    fv == 1000 * (1 + -0.10) ^ 2 + 100 * inject_Z 2 /\
    fv == 1010 /\
    annuity_future_value 1000 100 (-0.10) 2 == 1000 /\
    ~ fv == annuity_future_value 1000 100 (-0.10) 2.
Proof.
  eexists. split; [reflexivity|].
  repeat split; by_evaluation.
Qed.

(** ** Claims about the Year-by-Year Ledger Builder *)

(** C2 (the code departs from the claim).  ['Interest Earned'] is the opening
    balance times the annual rate, not closing - opening - contributions:
    for principal 1000, no contribution, 12% and one year the row reports
    120 while twelve monthly steps from 1000 gain more than 126. *)
Theorem interest_earned_is_not_the_gain_of_the_year :
  exists row,
    generate_year_by_year_data 1000 0 0.12 1 = [row] /\
    Ending_Balance row == compound_year 0 0.12 1000 /\
    Interest_Earned row == 1000 * 0.12 /\
    Interest_Earned row == 120 /\
    126 < interest_spec 1000 (Ending_Balance row) (Annual_Investment row) /\
    ~ Interest_Earned row ==
      interest_spec 1000 (Ending_Balance row) (Annual_Investment row).
Proof.
  eexists. split; [reflexivity|].
  repeat split; by_evaluation.
Qed.

(** C3 (the code departs from the claim).  ['Total Interest'] is closing
    balance minus total invested, which the running sum of
    ['Interest Earned'] does not reach: for principal 1000, no contribution,
    12% and two years the running sums are 120 and below 256 while the
    column holds more than 126 and more than 269. *)
Theorem total_interest_is_not_the_running_sum :
  exists row1 row2,
    generate_year_by_year_data 1000 0 0.12 2 = [row1; row2] /\
    running_sum Interest_Earned 0 [row1; row2] =
      [0 + Interest_Earned row1;
       0 + Interest_Earned row1 + Interest_Earned row2] /\
    0 + Interest_Earned row1 == 120 /\
    126 < Total_Interest row1 /\
    0 + Interest_Earned row1 + Interest_Earned row2 < 256 /\
    269 < Total_Interest row2 /\
    ~ Forall2 Qeq (map Total_Interest [row1; row2])
        (running_sum Interest_Earned 0 [row1; row2]).
Proof.
  do 2 eexists. split; [reflexivity|].
  repeat split; try by_evaluation.
  intro H. inversion H as [|x y l l' Hxy _]; subst.
  revert Hxy. by_evaluation.
Qed.

(** ** The engine respects equality of numbers *)

#[export] Instance Qgtb_comp : Proper (Qeq ==> Qeq ==> eq) Qgtb.
Proof. intros x x' Hx y y' Hy. unfold Qgtb. now rewrite Hx, Hy. Qed.

#[export] Instance month_step_comp :
  Proper (Qeq ==> Qeq ==> Qeq ==> Qeq) month_step.
Proof.
  intros m m' Hm r r' Hr b b' Hb. unfold month_step. now rewrite Hm, Hr, Hb.
Qed.

#[export] Instance compound_year_comp :
  Proper (Qeq ==> Qeq ==> Qeq ==> Qeq) compound_year.
Proof.
  intros m m' Hm r r' Hr b b' Hb. unfold compound_year.
  generalize 12%nat as j. induction j as [|j IH].
  - exact Hb.
  - rewrite !Nat.iter_succ. now apply month_step_comp.
Qed.

#[export] Instance future_value_of_comp :
  Proper (Qeq ==> Qeq ==> Qeq ==> eq ==> Qeq) future_value_of.
Proof.
  intros p p' Hp m m' Hm r r' Hr n n' <-. unfold future_value_of.
  rewrite <- (Qgtb_comp r r' Hr 0 0 (Qeq_refl 0)).
  destruct (Qgtb r 0); now rewrite Hp, Hm, Hr.
Qed.

Lemma year_step_comp (m m' r r' : Q) (st st' : LedgerState) (year : Z) :
  m == m' -> r == r' -> LedgerState_eq st st' ->
  LedgerState_eq (fst (year_step m r st year)) (fst (year_step m' r' st' year)) /\
  YearRecord_eq (snd (year_step m r st year)) (snd (year_step m' r' st' year)).
Proof.
  intros Hm Hr [Hb Ht].
  assert (Hc : compound_year m r (current_balance st) ==
               compound_year m' r' (current_balance st'))
    by now apply compound_year_comp.
  unfold year_step, LedgerState_eq, YearRecord_eq.
  cbn [fst snd current_balance total_invested Year Beginning_Balance
       Annual_Investment Interest_Earned Ending_Balance Total_Invested
       Total_Interest].
  rewrite Hc, Hm, Hr, Hb, Ht. repeat split; reflexivity.
Qed.

Lemma year_loop_comp (m m' r r' : Q) (years : list Z) (st st' : LedgerState) :
  m == m' -> r == r' -> LedgerState_eq st st' ->
  Ledger_eq (year_loop m r years st) (year_loop m' r' years st').
Proof.
  intros Hm Hr. revert st st'.
  induction years as [|year rest IH]; intros st st' Hst; [constructor|].
  cbn [year_loop].
  destruct (year_step_comp m m' r r' st st' year Hm Hr Hst) as [Hfst Hsnd].
  destruct (year_step m r st year) as [s1 row1].
  destruct (year_step m' r' st' year) as [s2 row2].
  constructor; [exact Hsnd|]. apply IH. exact Hfst.
Qed.

(** Equal inputs give ledgers equal field for field. *)
Lemma generate_year_by_year_data_comp (p p' m m' r r' : Q) (years : Z) :
  p == p' -> m == m' -> r == r' ->
  Ledger_eq (generate_year_by_year_data p m r years)
    (generate_year_by_year_data p' m' r' years).
Proof.
  intros Hp Hm Hr. unfold generate_year_by_year_data.
  apply year_loop_comp; try assumption. now split.
Qed.

Lemma calculate_future_value_comp (p p' m m' r r' : Q) (years : Z)
    (frequency : string) :
  p == p' -> m == m' -> r == r' ->
  result_rel Qeq (calculate_future_value p m r years frequency)
    (calculate_future_value p' m' r' years frequency).
Proof.
  intros Hp Hm Hr. rewrite !calculate_future_value_eq.
  assert (Hrate : period_rate r frequency == period_rate r' frequency).
  { unfold period_rate. destruct (String.eqb frequency "monthly");
      now rewrite Hr. }
  rewrite <- (Qeqb_comp (1 + period_rate r frequency)
                (1 + period_rate r' frequency)
                ltac:(now rewrite Hrate) 0 0 (Qeq_refl 0)).
  destruct ((period_count years frequency <? 0)%Z &&
            Qeq_bool (1 + period_rate r frequency) 0); cbn.
  - reflexivity.
  - now apply future_value_of_comp.
Qed.

Lemma dict_get_comp (d d' : dict Q) (k : string) :
  dict_eq d d' -> result_rel Qeq (dict_get d k) (dict_get d' k).
Proof.
  unfold dict_get. induction 1 as [|[k1 v1] [k2 v2] d d' [Hk Hv] _ IH].
  - reflexivity.
  - cbn in Hk, Hv. subst k2. cbn [dict_find].
    destruct (String.eqb k1 k); [exact Hv | exact IH].
Qed.

Lemma tag_rows_comp (asset : string) (w : Q) (l l' : list YearRecord) :
  Ledger_eq l l' ->
  Portfolio_eq (map (fun row => mkPortfolioRow row asset w) l)
    (map (fun row => mkPortfolioRow row asset w) l').
Proof.
  induction 1 as [|row row' l l' Hrow _ IH]; cbn [map]; constructor.
  - repeat split; try reflexivity; apply Hrow.
  - exact IH.
Qed.

Lemma asset_projection_comp (returns returns' : dict Q) (p p' m m' : Q)
    (years : Z) (asset : string) (w : Q) :
  dict_eq returns returns' -> p == p' -> m == m' ->
  result_rel step_eq
    (asset_projection returns p m years asset w)
    (asset_projection returns' p' m' years asset w).
Proof.
  intros Hret Hp Hm. unfold asset_projection.
  pose proof (dict_get_comp returns returns' asset Hret) as Hget.
  destruct (dict_get returns asset) as [r|e],
           (dict_get returns' asset) as [r'|e']; cbn in Hget; try contradiction;
    cbn [bind]; [|exact Hget].
  assert (Hpw : p * w == p' * w) by now rewrite Hp.
  assert (Hmw : m * w == m' * w) by now rewrite Hm.
  pose proof (calculate_future_value_comp _ _ _ _ _ _ years
                default_compound_frequency Hpw Hmw Hget) as Hfv.
  destruct (calculate_future_value (p * w) (m * w) r years
              default_compound_frequency) as [fv|e],
           (calculate_future_value (p' * w) (m' * w) r' years
              default_compound_frequency) as [fv'|e'];
    cbn in Hfv; try contradiction; cbn [bind]; [|exact Hfv].
  split; [exact Hfv|]. cbn [snd].
  apply tag_rows_comp. now apply generate_year_by_year_data_comp.
Qed.

Lemma portfolio_loop_comp (returns returns' : dict Q) (p p' m m' : Q)
    (years : Z) (items : dict Q) :
  dict_eq returns returns' -> p == p' -> m == m' ->
  result_rel (Forall2 step_eq)
    (portfolio_loop returns p m years items)
    (portfolio_loop returns' p' m' years items).
Proof.
  intros Hret Hp Hm. induction items as [|[asset w] rest IH].
  - constructor.
  - cbn [portfolio_loop]. destruct (Qgtb w 0); [|exact IH].
    pose proof (asset_projection_comp returns returns' p p' m m' years asset w
                  Hret Hp Hm) as Hstep.
    destruct (asset_projection returns p m years asset w) as [s|e],
             (asset_projection returns' p' m' years asset w) as [s'|e'];
      cbn in Hstep; try contradiction; cbn [bind]; [|exact Hstep].
    destruct (portfolio_loop returns p m years rest) as [ss|e],
             (portfolio_loop returns' p' m' years rest) as [ss'|e'];
      cbn in IH; try contradiction; cbn [bind]; [|exact IH].
    now constructor.
Qed.

Lemma Forall2_concat {A : Type} (rel : A -> A -> Prop) (ls ls' : list (list A)) :
  Forall2 (Forall2 rel) ls ls' -> Forall2 rel (List.concat ls) (List.concat ls').
Proof.
  induction 1 as [|l l' ls ls' Hl _ IH]; cbn [List.concat].
  - constructor.
  - now apply Forall2_app.
Qed.

(** Equal tables of returns and equal amounts give portfolio tables equal
    field for field, or the same exception. *)
Lemma calculate_portfolio_returns_comp (allocations returns returns' : dict Q)
    (p p' m m' : Q) (years : Z) :
  dict_eq returns returns' -> p == p' -> m == m' ->
  result_rel Portfolio_eq
    (calculate_portfolio_returns allocations returns p m years)
    (calculate_portfolio_returns allocations returns' p' m' years).
Proof.
  intros Hret Hp Hm. unfold calculate_portfolio_returns.
  pose proof (portfolio_loop_comp returns returns' p p' m m' years allocations
                Hret Hp Hm) as Hloop.
  destruct (portfolio_loop returns p m years allocations) as [ss|e],
           (portfolio_loop returns' p' m' years allocations) as [ss'|e'];
    cbn in Hloop; try contradiction; cbn [bind]; [|exact Hloop].
  apply Forall2_concat.
  induction Hloop as [|s s' ss ss' [_ Hs] _ IH]; cbn [map]; now constructor.
Qed.

Lemma scaled_by_one (d : dict Q) (c : Q) :
  c == 1 -> dict_eq (map (fun kv => (fst kv, snd kv * c)) d) d.
Proof.
  intros Hc. induction d as [|[k v] d IH]; cbn [map]; constructor.
  - cbn [fst snd]. split; [reflexivity|]. rewrite Hc. ring.
  - exact IH.
Qed.



(** ** Claims about the Portfolio Aggregator *)

Lemma portfolio_loop_without_positive_weight (returns : dict Q) (p m : Q)
    (years : Z) (items : dict Q) :
  Forall (fun item => snd item <= 0) items ->
  portfolio_loop returns p m years items = Ok [].
Proof.
  induction 1 as [|[asset w] rest Hw _ IH]; [reflexivity|].
  cbn [portfolio_loop]. cbn [snd] in Hw.
  apply Qgtb_false in Hw. now rewrite Hw.
Qed.

(** C7.  When no asset has a positive weight the aggregator returns the
    empty table without raising, whatever the table of returns holds, and
    the portfolio callback answers "No data". *)
Theorem empty_allocation_gives_empty_portfolio (allocations returns : dict Q)
    (principal monthly_payment initial monthly : Q) (years : Z)
    (rebalancing : string) (lifecycle : list string) :
  Forall (fun item => snd item <= 0) allocations ->
  calculate_portfolio_returns allocations returns principal monthly_payment
    years = Ok [] /\
  update_portfolio_performance allocations initial monthly years rebalancing
    lifecycle = Ok NoData.
Proof.
  intros Hw. split.
  - unfold calculate_portfolio_returns.
    now rewrite portfolio_loop_without_positive_weight.
  - unfold update_portfolio_performance, performance_portfolio,
      calculate_portfolio_returns.
    destruct (is_empty allocations); [reflexivity|].
    now rewrite portfolio_loop_without_positive_weight.
Qed.

Lemma empty_allocation_gives_empty_portfolio_witness :
  calculate_portfolio_returns
    [("stocks_kr", 0); ("bonds", 0); ("crypto", 0)]%string DEFAULT_RETURNS
    10000000 1140000 20 = Ok [] /\
  update_portfolio_performance
    [("stocks_kr", 0); ("bonds", 0); ("crypto", 0)]%string
    1000 114 20 "yearly" [] = Ok NoData.
Proof.
  apply (empty_allocation_gives_empty_portfolio
           [("stocks_kr", 0); ("bonds", 0); ("crypto", 0)]%string
           DEFAULT_RETURNS 10000000 1140000 1000 114 20 "yearly" []).
  repeat constructor; cbn; discriminate.
Defined.



(** C10.  Every iteration of the aggregator's loop calls the calculator
    with the default frequency, so each [fv] is the monthly value, with
    rate [asset_return / 12] over [years * 12] periods; the portfolio
    callback does not receive the frequency selector, and its outcome is the
    same for every setting of it. *)
Theorem portfolio_uses_monthly_compounding (returns : dict Q)
    (principal monthly_payment : Q) (years : Z) (items : dict Q)
    (steps : list (Q * list PortfolioRow)) (page : PageInputs)
    (choice : string) :
  portfolio_loop returns principal monthly_payment years items = Ok steps ->
  Forall2
    (fun item step =>
       exists asset_return,
         dict_find returns (fst item) = Some asset_return /\
         calculate_future_value (principal * snd item)
           (monthly_payment * snd item) asset_return years "monthly" =
           Ok (fst step) /\
         fst step =
           future_value_of (principal * snd item) (monthly_payment * snd item)
             (asset_return / 12) (years * 12))
    (filter (fun item => Qgtb (snd item) 0) items) steps /\
  portfolio_mode (set_compound_frequency choice page) = portfolio_mode page.
Proof.
  intros Hloop. split; [|reflexivity].
  revert steps Hloop.
  induction items as [|[asset w] rest IH]; intros steps Hloop.
  - cbn in Hloop. injection Hloop as <-. constructor.
  - cbn [portfolio_loop] in Hloop. cbn [filter snd].
    destruct (Qgtb w 0); [|now apply IH].
    unfold asset_projection, dict_get in Hloop.
    destruct (dict_find returns asset) as [asset_return|] eqn:Hfind;
      cbn [bind] in Hloop; [|discriminate].
    change default_compound_frequency with "monthly"%string in Hloop.
    destruct (calculate_future_value (principal * w) (monthly_payment * w)
                asset_return years "monthly") as [fv|e] eqn:Hfv;
      cbn [bind] in Hloop; [|discriminate].
    destruct (portfolio_loop returns principal monthly_payment years rest)
      as [steps'|e]; cbn [bind] in Hloop; [|discriminate].
    injection Hloop as <-. constructor; [|now apply IH].
    exists asset_return. cbn [fst snd]. repeat split; try assumption.
    rewrite calculate_future_value_eq in Hfv.
    destruct ((period_count years "monthly" <? 0)%Z &&
              Qeq_bool (1 + period_rate asset_return "monthly") 0);
      [discriminate|].
    injection Hfv as <-. reflexivity.
Qed.

Lemma portfolio_uses_monthly_compounding_witness :
  Forall2
    (fun item step =>
       exists asset_return,
         dict_find DEFAULT_RETURNS (fst item) = Some asset_return /\
         calculate_future_value (1000 * snd item) (100 * snd item)
           asset_return 1 "monthly" = Ok (fst step) /\
         fst step =
           future_value_of (1000 * snd item) (100 * snd item)
             (asset_return / 12) (1 * 12))
    (filter (fun item => Qgtb (snd item) 0)
       [("bonds", 0.5); ("crypto", 0)]%string)
    [(future_value_of (1000 * 0.5) (100 * 0.5) (0.035 / 12) (1 * 12),
      map (fun row => mkPortfolioRow row "bonds" 0.5)
        (generate_year_by_year_data (1000 * 0.5) (100 * 0.5) 0.035 1))] /\
  portfolio_mode
    (set_compound_frequency "yearly"
       (mkPageInputs "monthly" [("bonds", 0.5); ("crypto", 0)]%string
          1000 100 1 "yearly" [])) =
  portfolio_mode
    (mkPageInputs "monthly" [("bonds", 0.5); ("crypto", 0)]%string
       1000 100 1 "yearly" []).
Proof.
  apply (portfolio_uses_monthly_compounding DEFAULT_RETURNS 1000 100 1
           [("bonds", 0.5); ("crypto", 0)]%string).
  reflexivity.
Defined.

(** ** Claims about the Risk and Scenario Analyzer *)

Lemma variance_sum_acc (items : dict Q) (acc : Q) :
  variance_sum items acc == acc + squared_weights_sum items.
Proof.
  revert acc. induction items as [|[asset w] rest IH]; intros acc.
  - cbn. ring.
  - cbn [variance_sum squared_weights_sum fold_right fst snd].
    fold (squared_weights_sum rest).
    unfold dict_mem, dict_get_default.
    destruct (dict_find ASSET_VOLATILITY asset) as [v|]; rewrite IH; ring.
Qed.

(** The guard [portfolio_volatility > 0] lets the division run exactly when
    the volatility, a square root, is not zero. *)
Lemma sharpe_ratio_of_sqrt (weighted_return : Q) (variance : R) :
  sharpe_ratio_of weighted_return (sqrt variance) =
  Ok (sharpe_spec weighted_return (sqrt variance)).
Proof.
  pose proof (sqrt_pos variance) as Hpos.
  unfold sharpe_ratio_of, sharpe_spec, py_div_R.
  destruct (Rlt_dec 0 (sqrt variance)) as [Hlt|Hnlt];
    destruct (Req_dec_T (sqrt variance) 0) as [Heq|Hneq];
    try reflexivity; exfalso; lra.
Qed.


(** C8.  The normal scenario has multiplier 1, and the table the scenario
    callback computes under it equals, field for field, the table the
    portfolio callback computes from the same allocation, amounts and
    horizon (or both raise the same exception). *)
Theorem normal_scenario_reproduces_portfolio (allocations : dict Q)
    (initial monthly : Q) (years : Z) :
  exists normal,
    dict_find scenario_adjustments "scenario-normal" = Some normal /\
    multiplier normal == 1 /\
    result_rel Portfolio_eq
      (scenario_portfolio normal allocations initial monthly years)
      (performance_portfolio allocations initial monthly years).
Proof.
  eexists. split; [reflexivity|]. split; [reflexivity|].
  unfold scenario_portfolio, performance_portfolio.
  apply calculate_portfolio_returns_comp; try reflexivity.
  unfold adjusted_returns. apply scaled_by_one. reflexivity.
Qed.

(** * Further properties of the engine *)

(** ** The ledger *)

Section LedgerRows.

Variables principal monthly_payment annual_rate : Q.

(** A property of the row of every year holds along the whole ledger. *)
Lemma ledger_Forall2 (P : Z -> YearRecord -> Prop) (years : Z) :
  (forall k : nat,
     P (1 + Z.of_nat k)%Z (row_of_year principal monthly_payment annual_rate k)) ->
  Forall2 P (py_range 1 (years + 1))
    (generate_year_by_year_data principal monthly_payment annual_rate years).
Proof.
  intros HP. rewrite ledger_rows, py_range_from_1.
  induction (seq 0 (Z.to_nat years)) as [|k ks IH]; cbn [map]; constructor.
  - apply HP.
  - exact IH.
Qed.

Lemma ledger_Forall (P : YearRecord -> Prop) (years : Z) :
  (forall k : nat, P (row_of_year principal monthly_payment annual_rate k)) ->
  Forall P
    (generate_year_by_year_data principal monthly_payment annual_rate years).
Proof.
  intros HP. rewrite ledger_rows. apply Forall_forall. intros row Hin.
  apply in_map_iff in Hin. destruct Hin as [k [<- _]]. apply HP.
Qed.

Lemma invested_after_closed_form (k : nat) :
  invested_after principal monthly_payment k ==
  principal + inject_Z (Z.of_nat k) * (monthly_payment * 12).
Proof.
  unfold invested_after. induction k as [|k IH].
  - cbn. ring.
  - rewrite Nat.iter_succ, IH, Nat2Z.inj_succ. unfold Z.succ.
    rewrite inject_Z_plus. ring.
Qed.

(** The rows are numbered 1, 2, ..., and the row of year [y] closes with the
    annuity value for [12 * y] months at the monthly rate, for a rate of any
    sign; its cumulative interest is that value minus everything paid in. *)
Theorem ledger_closing_balance (years : Z) :
  Forall2
    (fun year row =>
       Year row = year /\
       Ending_Balance row ==
         annuity_future_value principal monthly_payment (annual_rate / 12)
           (year * 12) /\
       Total_Interest row ==
         annuity_future_value principal monthly_payment (annual_rate / 12)
           (year * 12) -
         (principal + inject_Z year * (monthly_payment * 12)))
    (py_range 1 (years + 1))
    (generate_year_by_year_data principal monthly_payment annual_rate years).
Proof.
  apply ledger_Forall2. intros k.
  destruct (row_of_year_fields principal monthly_payment annual_rate k)
    as (HY & _ & _ & HE & _ & _ & HT).
  replace (1 + Z.of_nat k)%Z with (Z.of_nat (S k)) by lia.
  split; [rewrite HY; lia|]. split.
  - rewrite HE. apply opening_balance_closed_form.
  - rewrite HT, opening_balance_closed_form, invested_after_closed_form.
    reflexivity.
Qed.

(** The contributions column is twelve payments, and the cumulative
    contributions of year [y] are the principal plus [12 * y] payments. *)
Theorem ledger_total_invested (years : Z) :
  Forall2
    (fun year row =>
       Annual_Investment row = monthly_payment * 12 /\
       Total_Invested row ==
         principal + inject_Z year * (monthly_payment * 12))
    (py_range 1 (years + 1))
    (generate_year_by_year_data principal monthly_payment annual_rate years).
Proof.
  apply ledger_Forall2. intros k.
  destruct (row_of_year_fields principal monthly_payment annual_rate k)
    as (_ & HA & _ & _ & _ & HI & _).
  split; [exact HA|].
  rewrite HI, invested_after_closed_form.
  now replace (1 + Z.of_nat k)%Z with (Z.of_nat (S k)) by lia.
Qed.

(** In every row the closing balance is the beginning balance plus the
    contributions plus the interest column, and the cumulative interest is
    the closing balance minus the cumulative contributions. *)
Theorem ledger_rows_reconcile (years : Z) :
  Forall
    (fun row =>
       Ending_Balance row ==
         Beginning_Balance row + Annual_Investment row + Interest_Earned row /\
       Total_Interest row == Ending_Balance row - Total_Invested row)
    (generate_year_by_year_data principal monthly_payment annual_rate years).
Proof.
  apply ledger_Forall. intros k. split.
  - apply row_columns_reconcile.
  - reflexivity.
Qed.

End LedgerRows.

(** *** Growth, sign and scale of the balance *)

Lemma monthly_rate_nonneg (annual_rate : Q) :
  0 <= annual_rate -> 0 <= annual_rate / 12.
Proof.
  intros H. apply Qle_shift_div_l; [reflexivity|]. now rewrite Qmult_0_l.
Qed.

Lemma monthly_rate_le (r r' : Q) : r <= r' -> r / 12 <= r' / 12.
Proof.
  intros H. unfold Qdiv. apply Qmult_le_compat_r; [exact H|discriminate].
Qed.

(** With a rate that is not negative, [j] months add at least [j] payments
    to a balance that is not negative. *)
Lemma months_grow (monthly_payment annual_rate b : Q) (j : nat) :
  0 <= annual_rate -> 0 <= monthly_payment -> 0 <= b ->
  b + inject_Z (Z.of_nat j) * monthly_payment <=
  Nat.iter j (month_step monthly_payment annual_rate) b.
Proof.
  intros Hr Hm Hb. apply monthly_rate_nonneg in Hr.
  induction j as [|j IH].
  - change (b + 0 * monthly_payment <= b). lra.
  - rewrite Nat.iter_succ, Nat2Z.inj_succ. unfold Z.succ, month_step at 1.
    rewrite inject_Z_plus.
    assert (Hj : 0 <= inject_Z (Z.of_nat j)).
    { change 0 with (inject_Z 0). rewrite <- Zle_Qle. lia. }
    set (g := annual_rate / 12) in *.
    set (c := inject_Z (Z.of_nat j)) in *.
    set (x := Nat.iter j (month_step monthly_payment annual_rate) b) in *.
    change (inject_Z 1) with 1. clearbody g c x.
    assert (Hcm : 0 <= c * monthly_payment) by now apply Qmult_le_0_compat.
    assert (Hxg : 0 <= x * g) by (apply Qmult_le_0_compat; lra).
    lra.
Qed.

Lemma compound_year_grows (monthly_payment annual_rate b : Q) :
  0 <= annual_rate -> 0 <= monthly_payment -> 0 <= b ->
  b + monthly_payment * 12 <= compound_year monthly_payment annual_rate b.
Proof.
  intros Hr Hm Hb.
  pose proof (months_grow monthly_payment annual_rate b 12 Hr Hm Hb) as H.
  unfold compound_year. change (inject_Z (Z.of_nat 12)) with 12 in H. lra.
Qed.

Lemma invested_after_nonneg (principal monthly_payment : Q) (k : nat) :
  0 <= principal -> 0 <= monthly_payment ->
  0 <= invested_after principal monthly_payment k.
Proof.
  intros Hp Hm. unfold invested_after. induction k as [|k IH].
  - exact Hp.
  - rewrite Nat.iter_succ. lra.
Qed.

Lemma opening_covers_invested (principal monthly_payment annual_rate : Q)
    (k : nat) :
  0 <= principal -> 0 <= monthly_payment -> 0 <= annual_rate ->
  invested_after principal monthly_payment k <=
  opening_balance principal monthly_payment annual_rate k.
Proof.
  intros Hp Hm Hr. induction k as [|k IH].
  - apply Qle_refl.
  - pose proof (invested_after_nonneg principal monthly_payment k Hp Hm) as Hi.
    unfold opening_balance, invested_after in *. rewrite !Nat.iter_succ.
    set (o := Nat.iter k (compound_year monthly_payment annual_rate) principal)
      in *.
    pose proof (compound_year_grows monthly_payment annual_rate o Hr Hm
                  ltac:(lra)) as Hg.
    lra.
Qed.

(** With a principal, a contribution and a rate that are not negative, no
    row shows negative interest and the balance never falls below what was
    paid in. *)
Theorem ledger_never_loses (principal monthly_payment annual_rate : Q)
    (years : Z) :
  0 <= principal -> 0 <= monthly_payment -> 0 <= annual_rate ->
  Forall
    (fun row =>
       0 <= Interest_Earned row /\
       0 <= Total_Interest row /\
       Total_Invested row <= Ending_Balance row)
    (generate_year_by_year_data principal monthly_payment annual_rate years).
Proof.
  intros Hp Hm Hr. apply ledger_Forall. intros k.
  destruct (row_of_year_fields principal monthly_payment annual_rate k)
    as (_ & _ & HI & HE & _ & HT & HC).
  rewrite HI, HE, HT, HC.
  pose proof (opening_covers_invested principal monthly_payment annual_rate k
                Hp Hm Hr) as Hk.
  pose proof (opening_covers_invested principal monthly_payment annual_rate
                (S k) Hp Hm Hr) as HSk.
  pose proof (invested_after_nonneg principal monthly_payment k Hp Hm) as Hi.
  repeat split; try lra.
  apply Qmult_le_0_compat; lra.
Qed.

Lemma ledger_never_loses_witness :
  Forall
    (fun row =>
       0 <= Interest_Earned row /\
       0 <= Total_Interest row /\
       Total_Invested row <= Ending_Balance row)
    (generate_year_by_year_data 1000 100 0.06 2).
Proof.
  apply (ledger_never_loses 1000 100 0.06 2); by_evaluation.
Defined.

Lemma opening_zero_rate (principal monthly_payment annual_rate : Q) (k : nat) :
  annual_rate == 0 ->
  opening_balance principal monthly_payment annual_rate k ==
  invested_after principal monthly_payment k.
Proof.
  intros Hr.
  rewrite opening_balance_closed_form, invested_after_closed_form.
  unfold annuity_future_value.
  assert (Hz : annual_rate / 12 == 0) by now rewrite Hr.
  assert (Hb : Qeq_bool (annual_rate / 12) 0 = true) by now apply Qeq_bool_iff.
  rewrite Hb, Hz, Qplus_0_r, Qpower_1, inject_Z_mult.
  change (inject_Z 12) with 12. ring.
Qed.

(** At a rate of zero nothing is earned: the interest columns are 0 and the
    balance is what was paid in. *)
Theorem ledger_at_zero_rate (principal monthly_payment annual_rate : Q)
    (years : Z) :
  annual_rate == 0 ->
  Forall
    (fun row =>
       Interest_Earned row == 0 /\
       Total_Interest row == 0 /\
       Ending_Balance row == Total_Invested row)
    (generate_year_by_year_data principal monthly_payment annual_rate years).
Proof.
  intros Hr. apply ledger_Forall. intros k.
  destruct (row_of_year_fields principal monthly_payment annual_rate k)
    as (_ & _ & HI & HE & _ & HT & HC).
  rewrite HI, HE, HT, HC.
  rewrite (opening_zero_rate principal monthly_payment annual_rate (S k) Hr).
  repeat split; try ring.
  transitivity (opening_balance principal monthly_payment annual_rate k * 0);
    [|ring].
  apply Qmult_comp; [reflexivity|exact Hr].
Qed.

Lemma ledger_at_zero_rate_witness :
  Forall
    (fun row =>
       Interest_Earned row == 0 /\
       Total_Interest row == 0 /\
       Ending_Balance row == Total_Invested row)
    (generate_year_by_year_data 1000 100 0 3).
Proof.
  apply (ledger_at_zero_rate 1000 100 0 3). reflexivity.
Defined.

Lemma ledger_Forall2_pair (rel : YearRecord -> YearRecord -> Prop)
    (p m r p' m' r' : Q) (years : Z) :
  (forall k : nat, rel (row_of_year p m r k) (row_of_year p' m' r' k)) ->
  Forall2 rel (generate_year_by_year_data p m r years)
    (generate_year_by_year_data p' m' r' years).
Proof.
  intros Hrel. rewrite !ledger_rows.
  induction (seq 0 (Z.to_nat years)) as [|k ks IH]; cbn [map]; constructor.
  - apply Hrel.
  - exact IH.
Qed.

Lemma month_step_mono (monthly_payment r r' x x' : Q) :
  0 <= monthly_payment -> -12 <= r -> r <= r' -> 0 <= x -> x <= x' ->
  0 <= month_step monthly_payment r x /\
  month_step monthly_payment r x <= month_step monthly_payment r' x'.
Proof.
  intros Hm Hlow Hr Hx Hxx. unfold month_step.
  assert (Hg : 0 <= 1 + r / 12).
  { assert (H : -12 / 12 <= r / 12) by now apply monthly_rate_le.
    assert (E : -12 / 12 == -1) by reflexivity.
    rewrite E in H. clear E. set (a := r / 12) in *. clearbody a. lra. }
  assert (Hgg : 1 + r / 12 <= 1 + r' / 12).
  { apply monthly_rate_le in Hr.
    set (a := r / 12) in *. set (a' := r' / 12) in *. clearbody a a'. lra. }
  set (g := 1 + r / 12) in *. set (g' := 1 + r' / 12) in *.
  clearbody g g'.
  assert (H1 : 0 <= x * g) by now apply Qmult_le_0_compat.
  assert (H2 : x * g <= x' * g).
  { apply Qmult_le_compat_r; assumption. }
  assert (H3 : x' * g <= x' * g').
  { rewrite (Qmult_comm x' g), (Qmult_comm x' g').
    apply Qmult_le_compat_r; lra. }
  split; lra.
Qed.

Lemma months_mono (monthly_payment r r' b b' : Q) (j : nat) :
  0 <= monthly_payment -> -12 <= r -> r <= r' -> 0 <= b -> b <= b' ->
  0 <= Nat.iter j (month_step monthly_payment r) b /\
  Nat.iter j (month_step monthly_payment r) b <=
  Nat.iter j (month_step monthly_payment r') b'.
Proof.
  intros Hm Hlow Hr Hb Hbb.
  induction j as [|j [IH0 IH]].
  - split; assumption.
  - rewrite !Nat.iter_succ. now apply month_step_mono.
Qed.

Lemma opening_mono (principal monthly_payment r r' : Q) (k : nat) :
  0 <= principal -> 0 <= monthly_payment -> -12 <= r -> r <= r' ->
  0 <= opening_balance principal monthly_payment r k /\
  opening_balance principal monthly_payment r k <=
  opening_balance principal monthly_payment r' k.
Proof.
  intros Hp Hm Hlow Hr. rewrite !opening_balance_months.
  apply months_mono; try assumption. apply Qle_refl.
Qed.

(** A higher rate never gives less: with a principal and a contribution
    that are not negative and rates from -1200% a year upward, raising the
    annual rate raises, or keeps, the closing balance and the cumulative
    interest of every year. *)
Theorem ledger_monotone_in_rate (principal monthly_payment r r' : Q)
    (years : Z) :
  0 <= principal -> 0 <= monthly_payment -> -12 <= r -> r <= r' ->
  Forall2
    (fun low high =>
       Year low = Year high /\
       Ending_Balance low <= Ending_Balance high /\
       Total_Interest low <= Total_Interest high)
    (generate_year_by_year_data principal monthly_payment r years)
    (generate_year_by_year_data principal monthly_payment r' years).
Proof.
  intros Hp Hm Hlow Hr. apply ledger_Forall2_pair. intros k.
  destruct (row_of_year_fields principal monthly_payment r k)
    as (HY & _ & _ & HE & _ & _ & HC).
  destruct (row_of_year_fields principal monthly_payment r' k)
    as (HY' & _ & _ & HE' & _ & _ & HC').
  rewrite HY, HY', HE, HE', HC, HC'.
  destruct (opening_mono principal monthly_payment r r' (S k) Hp Hm Hlow Hr)
    as [_ Hle].
  repeat split; lra.
Qed.

Lemma ledger_monotone_in_rate_witness :
  Forall2
    (fun low high =>
       Year low = Year high /\
       Ending_Balance low <= Ending_Balance high /\
       Total_Interest low <= Total_Interest high)
    (generate_year_by_year_data 1000 100 (-0.05) 2)
    (generate_year_by_year_data 1000 100 0.08 2).
Proof.
  apply (ledger_monotone_in_rate 1000 100 (-0.05) 0.08 2); by_evaluation.
Defined.

Lemma months_scaled (monthly_payment annual_rate b w : Q) (j : nat) :
  Nat.iter j (month_step (monthly_payment * w) annual_rate) (b * w) ==
  w * Nat.iter j (month_step monthly_payment annual_rate) b.
Proof.
  induction j as [|j IH].
  - change (b * w == w * b). ring.
  - rewrite !Nat.iter_succ. unfold month_step at 1 3. rewrite IH. ring.
Qed.

Lemma opening_scaled (principal monthly_payment annual_rate w : Q) (k : nat) :
  opening_balance (principal * w) (monthly_payment * w) annual_rate k ==
  w * opening_balance principal monthly_payment annual_rate k.
Proof. rewrite !opening_balance_months. apply months_scaled. Qed.

Lemma invested_scaled (principal monthly_payment w : Q) (k : nat) :
  invested_after (principal * w) (monthly_payment * w) k ==
  w * invested_after principal monthly_payment k.
Proof. rewrite !invested_after_closed_form. ring. Qed.

(** The ledger is linear in the amounts: the ledger of a share [w] of the
    principal and of the contribution is the ledger of the whole plan with
    every amount multiplied by [w].  This is what lets the aggregator split a
    plan across assets. *)
Theorem ledger_scales (principal monthly_payment annual_rate w : Q)
    (years : Z) :
  Forall2 (YearRecord_scaled w)
    (generate_year_by_year_data (principal * w) (monthly_payment * w)
       annual_rate years)
    (generate_year_by_year_data principal monthly_payment annual_rate years).
Proof.
  apply ledger_Forall2_pair. intros k.
  destruct (row_of_year_fields (principal * w) (monthly_payment * w)
              annual_rate k) as (HY & HA & HI & HE & HB & HT & HC).
  destruct (row_of_year_fields principal monthly_payment annual_rate k)
    as (HY' & HA' & HI' & HE' & HB' & HT' & HC').
  unfold YearRecord_scaled.
  rewrite HY, HA, HI, HE, HB, HT, HC, HY', HA', HI', HE', HB', HT', HC'.
  rewrite !opening_scaled, !invested_scaled.
  repeat split; ring.
Qed.

(** ** The calculator *)

Lemma ledger_last_row (principal monthly_payment annual_rate : Q) (years : Z) :
  (0 < years)%Z ->
  iloc_last
    (generate_year_by_year_data principal monthly_payment annual_rate years) =
  inr (row_of_year principal monthly_payment annual_rate
         (Z.to_nat years - 1)).
Proof.
  intros Hyears. rewrite ledger_rows. unfold iloc_last.
  destruct (Z.to_nat years) as [|K] eqn:EK; [lia|].
  rewrite seq_S, map_app, rev_app_distr. cbn [map rev app Nat.add].
  now replace (S K - 1)%nat with K by lia.
Qed.

(** At a rate of zero, or of half a percent a year and more (the rates of
    the page are multiples of half a percent), and for a positive horizon, a
    value the calculator returns with monthly compounding is the closing
    balance of the last row of the ledger. *)
Theorem calculator_is_last_ledger_row
    (principal monthly_payment annual_rate : Q) (years : Z) (fv : Q) :
  annual_rate == 0 \/ 0.005 <= annual_rate ->
  (0 < years)%Z ->
  calculate_future_value principal monthly_payment annual_rate years
    "monthly" = Ok fv ->
  exists row,
    iloc_last
      (generate_year_by_year_data principal monthly_payment annual_rate years)
      = inr row /\
    fv == Ending_Balance row.
Proof.
  intros Hrate Hyears Hfv.
  assert (Hr : 0 <= annual_rate).
  { destruct Hrate as [Hz|Hp]; [rewrite Hz; apply Qle_refl|].
    apply (Qle_trans _ 0.005); [discriminate|exact Hp]. }
  destruct (calculate_future_value_nonnegative_rate principal monthly_payment
              annual_rate years "monthly")
    as [fv' [Hfv' Heq]]; [now apply monthly_rate_nonneg | lia |].
  rewrite Hfv in Hfv'. injection Hfv' as <-.
  eexists. split; [now apply ledger_last_row|].
  rewrite Heq.
  destruct (row_of_year_fields principal monthly_payment annual_rate
              (Z.to_nat years - 1)) as (_ & _ & _ & HE & _).
  rewrite HE, opening_balance_closed_form.
  change (period_rate annual_rate "monthly") with (annual_rate / 12).
  change (period_count years "monthly") with (years * 12)%Z.
  now replace (Z.of_nat (S (Z.to_nat years - 1))) with years by lia.
Qed.

Lemma calculator_is_last_ledger_row_witness :
  exists row,
    iloc_last (generate_year_by_year_data 1000 100 0.06 2) = inr row /\
    future_value_of 1000 100 (0.06 / 12) (2 * 12) == Ending_Balance row.
Proof.
  apply (calculator_is_last_ledger_row 1000 100 0.06 2
           (future_value_of 1000 100 (0.06 / 12) (2 * 12))).
  - right. by_evaluation.
  - lia.
  - reflexivity.
Defined.

(** Every frequency other than ["monthly"], misspelt ones included, is
    taken as yearly. *)
Theorem other_frequencies_are_yearly
    (principal monthly_payment annual_rate : Q) (years : Z)
    (compound_frequency : string) :
  compound_frequency <> "monthly"%string ->
  calculate_future_value principal monthly_payment annual_rate years
    compound_frequency =
  calculate_future_value principal monthly_payment annual_rate years "yearly".
Proof.
  intros Hf. apply String.eqb_neq in Hf.
  unfold calculate_future_value, period_rate, period_count.
  rewrite Hf. reflexivity.
Qed.

Lemma other_frequencies_are_yearly_witness :
  calculate_future_value 1000 100 0.06 2 "Monthly" =
  calculate_future_value 1000 100 0.06 2 "yearly".
Proof.
  apply (other_frequencies_are_yearly 1000 100 0.06 2 "Monthly").
  discriminate.
Defined.

(** The calculator is linear in the amounts: a share [w] of the principal
    and of the contribution gives [w] times the value, and the same
    exception where the plain call raises. *)
Theorem calculator_scales (principal monthly_payment annual_rate w : Q)
    (years : Z) (compound_frequency : string) :
  result_rel (fun share whole => share == w * whole)
    (calculate_future_value (principal * w) (monthly_payment * w) annual_rate
       years compound_frequency)
    (calculate_future_value principal monthly_payment annual_rate years
       compound_frequency).
Proof.
  rewrite !calculate_future_value_eq.
  destruct ((period_count years compound_frequency <? 0)%Z &&
            Qeq_bool (1 + period_rate annual_rate compound_frequency) 0);
    cbn [result_rel]; [reflexivity|].
  unfold future_value_of.
  destruct (Qgtb (period_rate annual_rate compound_frequency) 0) eqn:Er.
  - apply Qgtb_true in Er. field. intro H. rewrite H in Er.
    apply (Qlt_irrefl 0 Er).
  - ring.
Qed.

(** At a rate of zero the yearly option counts one payment a year where the
    monthly option counts twelve. *)
Theorem yearly_option_counts_one_payment_a_year
    (principal monthly_payment : Q) (years : Z) :
  exists yearly monthly,
    calculate_future_value principal monthly_payment 0 years "yearly"
      = Ok yearly /\
    calculate_future_value principal monthly_payment 0 years "monthly"
      = Ok monthly /\
    yearly == principal + monthly_payment * inject_Z years /\
    monthly == principal + monthly_payment * (12 * inject_Z years).
Proof.
  rewrite !calculate_future_value_eq.
  change (Qeq_bool (1 + period_rate 0 "yearly") 0) with false.
  change (Qeq_bool (1 + period_rate 0 "monthly") 0) with false.
  rewrite !andb_false_r.
  do 2 eexists. split; [reflexivity|]. split; [reflexivity|].
  unfold future_value_of.
  change (Qgtb (period_rate 0 "yearly") 0) with false.
  change (Qgtb (period_rate 0 "monthly") 0) with false.
  change (1 + period_rate 0 "yearly") with 1.
  change (period_count years "yearly") with years.
  change (period_count years "monthly") with (years * 12)%Z.
  assert (E : 1 + period_rate 0 "monthly" == 1) by reflexivity.
  cbv iota. rewrite E, !Qpower_1, inject_Z_mult.
  change (inject_Z 12) with 12. split; ring.
Qed.

(** ** The aggregator *)


Lemma dict_get_default_found {V : Type} (d : dict V) (k : string) (v default : V) :
  dict_find d k = Some v -> dict_get_default d k default = v.
Proof. unfold dict_get_default. now intros ->. Qed.

(** When the loop returns, its frames are the tagged ledgers of the items
    with a positive weight, in order. *)
Lemma portfolio_loop_frames (returns : dict Q) (p m : Q) (years : Z)
    (items : dict Q) (steps : list (Q * list PortfolioRow)) :
  portfolio_loop returns p m years items = Ok steps ->
  map snd steps = map (asset_frame returns p m years) (positive_items items).
Proof.
  revert steps. induction items as [|[asset w] rest IH]; intros steps Hloop.
  - cbn in Hloop. now injection Hloop as <-.
  - cbn [portfolio_loop] in Hloop. unfold positive_items. cbn [filter snd].
    fold (positive_items rest).
    destruct (Qgtb w 0); [|now apply IH].
    unfold asset_projection, dict_get in Hloop.
    destruct (dict_find returns asset) as [ret|] eqn:Hfind;
      cbn [bind] in Hloop; [|discriminate].
    destruct (calculate_future_value (p * w) (m * w) ret years
                default_compound_frequency) as [fv|e];
      cbn [bind] in Hloop; [|discriminate].
    destruct (portfolio_loop returns p m years rest) as [steps'|e];
      cbn [bind] in Hloop; [|discriminate].
    injection Hloop as <-. cbn [map snd]. f_equal; [|now apply IH].
    unfold asset_frame. cbn [fst snd].
    now rewrite (dict_get_default_found returns asset ret 0 Hfind).
Qed.







(** Items whose weight is not positive do not matter at all: the aggregator
    returns what it returns on the allocation without them, exceptions
    included. *)
Theorem aggregator_ignores_weights_not_positive (allocations returns : dict Q)
    (principal monthly_payment : Q) (years : Z) :
  calculate_portfolio_returns allocations returns principal monthly_payment
    years =
  calculate_portfolio_returns (positive_items allocations) returns principal
    monthly_payment years.
Proof.
  unfold calculate_portfolio_returns. f_equal.
  induction allocations as [|[asset w] rest IH]; [reflexivity|].
  unfold positive_items. cbn [filter snd portfolio_loop].
  fold (positive_items rest).
  destruct (Qgtb w 0) eqn:Ew; [|exact IH].
  cbn [portfolio_loop]. rewrite Ew, IH. reflexivity.
Qed.

(** Every row the aggregator returns is tagged with an item of the
    allocation whose weight is positive. *)
Theorem aggregator_rows_are_tagged (allocations returns : dict Q)
    (principal monthly_payment : Q) (years : Z) (rows : list PortfolioRow) :
  calculate_portfolio_returns allocations returns principal monthly_payment
    years = Ok rows ->
  Forall
    (fun row =>
       In (Asset row, Allocation row) allocations /\ 0 < Allocation row)
    rows.
Proof.
  unfold calculate_portfolio_returns. intros Hrows.
  destruct (portfolio_loop returns principal monthly_payment years allocations)
    as [steps|e] eqn:Hloop; cbn [bind] in Hrows; [|discriminate].
  injection Hrows as <-.
  rewrite (portfolio_loop_frames _ _ _ _ _ _ Hloop).
  apply Forall_forall. intros row Hin.
  apply in_concat in Hin. destruct Hin as [frame [Hframe Hrow]].
  apply in_map_iff in Hframe. destruct Hframe as [[asset w] [<- Hitem]].
  unfold asset_frame in Hrow. apply in_map_iff in Hrow.
  destruct Hrow as [r [<- _]]. cbn [Asset Allocation fst snd].
  unfold positive_items in Hitem. apply filter_In in Hitem.
  destruct Hitem as [Hitem Hpos]. split; [exact Hitem|].
  now apply Qgtb_true.
Qed.

Lemma aggregator_rows_are_tagged_witness :
  Forall
    (fun row =>
       In (Asset row, Allocation row) [("bonds", 0.5); ("crypto", 0)]%string /\
       0 < Allocation row)
    (List.concat
       (map (asset_frame DEFAULT_RETURNS 1000 100 1)
          (positive_items [("bonds", 0.5); ("crypto", 0)]%string))).
Proof.
  apply (aggregator_rows_are_tagged [("bonds", 0.5); ("crypto", 0)]%string
           DEFAULT_RETURNS 1000 100 1).
  reflexivity.
Defined.

(** *** Totals of the last year *)

Lemma column_sum_acc (column : YearRecord -> Q) (frame : list PortfolioRow)
    (acc : Q) :
  fold_left (fun acc row => acc + column (row_record row)) frame acc ==
  acc + column_sum column frame.
Proof.
  unfold column_sum. revert acc.
  induction frame as [|row rest IH]; intros acc; cbn [fold_left].
  - ring.
  - rewrite IH, (IH (0 + _)). ring.
Qed.

Lemma column_sum_app (column : YearRecord -> Q) (a b : list PortfolioRow) :
  column_sum column (a ++ b) == column_sum column a + column_sum column b.
Proof.
  unfold column_sum at 1. rewrite fold_left_app, column_sum_acc.
  reflexivity.
Qed.

Lemma filter_nothing {A : Type} (f : A -> bool) (l : list A) :
  (forall x, In x l -> f x = false) -> filter f l = [].
Proof.
  induction l as [|x l IH]; intros H; [reflexivity|].
  cbn [filter]. rewrite (H x (or_introl eq_refl)).
  apply IH. intros y Hy. apply H. now right.
Qed.

Lemma filter_map_swap {A B : Type} (f : B -> bool) (g : A -> B) (l : list A) :
  filter f (map g l) = map g (filter (fun x => f (g x)) l).
Proof.
  induction l as [|x l IH]; [reflexivity|].
  cbn [map filter]. destruct (f (g x)); cbn [map]; now rewrite IH.
Qed.

Lemma last_year_of_seq (years : Z) :
  (0 < years)%Z ->
  filter (fun k => (1 + Z.of_nat k =? years)%Z) (seq 0 (Z.to_nat years)) =
  [(Z.to_nat years - 1)%nat].
Proof.
  intros Hyears. destruct (Z.to_nat years) as [|K] eqn:EK; [lia|].
  rewrite seq_S, filter_app. cbn [Nat.add filter].
  replace (1 + Z.of_nat K =? years)%Z with true
    by (symmetry; apply Z.eqb_eq; lia).
  rewrite filter_nothing.
  - cbn [app]. f_equal. lia.
  - intros k Hk. apply in_seq in Hk. apply Z.eqb_neq. lia.
Qed.

(** Of the tagged ledger of an item, the last year keeps one row. *)
Lemma final_year_of_frame (returns : dict Q) (p m : Q) (years : Z)
    (item : string * Q) :
  (0 < years)%Z ->
  final_year_rows years (asset_frame returns p m years item) =
  [mkPortfolioRow
     (row_of_year (p * snd item) (m * snd item)
        (dict_get_default returns (fst item) 0) (Z.to_nat years - 1))
     (fst item) (snd item)].
Proof.
  intros Hyears. unfold final_year_rows, asset_frame.
  set (ret := dict_get_default returns (fst item) 0).
  set (share := p * snd item). set (payment := m * snd item).
  rewrite ledger_rows, map_map, filter_map_swap. cbn [row_record].
  change (fun x : nat => (Year (row_of_year share payment ret x) =? years)%Z)
    with (fun k : nat => (1 + Z.of_nat k =? years)%Z).
  now rewrite last_year_of_seq.
Qed.

Lemma final_year_column_sum (returns : dict Q) (p m : Q) (years : Z)
    (column : YearRecord -> Q) (items : dict Q) :
  (0 < years)%Z ->
  column_sum column
    (final_year_rows years
       (List.concat (map (asset_frame returns p m years) items))) ==
  fold_right
    (fun item acc =>
       column
         (row_of_year (p * snd item) (m * snd item)
            (dict_get_default returns (fst item) 0) (Z.to_nat years - 1)) +
       acc)
    0 items.
Proof.
  intros Hyears. induction items as [|item rest IH].
  - reflexivity.
  - cbn [map List.concat fold_right]. unfold final_year_rows in *.
    rewrite filter_app, column_sum_app, IH.
    fold (final_year_rows years (asset_frame returns p m years item)).
    rewrite final_year_of_frame by exact Hyears.
    unfold column_sum at 1. cbn [fold_left row_record]. ring.
Qed.

(** In the last year the cumulative contributions of the portfolio add up
    to the plan's contributions times the sum of the positive weights: the
    whole plan when those weights sum to 1, more or less than the plan
    otherwise. *)
Theorem portfolio_total_invested (allocations returns : dict Q)
    (principal monthly_payment : Q) (years : Z) (rows : list PortfolioRow) :
  (0 < years)%Z ->
  calculate_portfolio_returns allocations returns principal monthly_payment
    years = Ok rows ->
  column_sum Total_Invested (final_year_rows years rows) ==
  (principal + inject_Z years * (monthly_payment * 12)) *
  positive_weight_sum allocations.
Proof.
  intros Hyears. unfold calculate_portfolio_returns. intros Hrows.
  destruct (portfolio_loop returns principal monthly_payment years allocations)
    as [steps|e] eqn:Hloop; cbn [bind] in Hrows; [|discriminate].
  injection Hrows as <-.
  rewrite (portfolio_loop_frames _ _ _ _ _ _ Hloop).
  rewrite final_year_column_sum by exact Hyears.
  unfold positive_weight_sum.
  induction (positive_items allocations) as [|item rest IH].
  - cbn [fold_right]. ring.
  - cbn [fold_right]. rewrite IH.
    destruct (row_of_year_fields (principal * snd item)
                (monthly_payment * snd item)
                (dict_get_default returns (fst item) 0)
                (Z.to_nat years - 1)) as (_ & _ & _ & _ & _ & HT & _).
    rewrite HT, invested_after_closed_form.
    replace (Z.of_nat (S (Z.to_nat years - 1))) with years by lia.
    ring.
Qed.

Lemma portfolio_total_invested_witness :
  column_sum Total_Invested
    (final_year_rows 2
       (List.concat
          (map (asset_frame DEFAULT_RETURNS 1000 100 2)
             (positive_items [("bonds", 0.6); ("reits", 0.4)]%string)))) ==
  (1000 + inject_Z 2 * (100 * 12)) *
  positive_weight_sum [("bonds", 0.6); ("reits", 0.4)]%string.
Proof.
  apply (portfolio_total_invested [("bonds", 0.6); ("reits", 0.4)]%string
           DEFAULT_RETURNS 1000 100 2).
  - lia.
  - reflexivity.
Defined.

(** In the last year the value of the portfolio is the weighted sum, over
    the assets of positive weight, of what the whole plan would be worth at
    each asset's return. *)
Theorem portfolio_total_value (allocations returns : dict Q)
    (principal monthly_payment : Q) (years : Z) (rows : list PortfolioRow) :
  (0 < years)%Z ->
  calculate_portfolio_returns allocations returns principal monthly_payment
    years = Ok rows ->
  column_sum Ending_Balance (final_year_rows years rows) ==
  fold_right
    (fun item acc =>
       snd item *
       annuity_future_value principal monthly_payment
         (dict_get_default returns (fst item) 0 / 12) (years * 12) + acc)
    0 (positive_items allocations).
Proof.
  intros Hyears. unfold calculate_portfolio_returns. intros Hrows.
  destruct (portfolio_loop returns principal monthly_payment years allocations)
    as [steps|e] eqn:Hloop; cbn [bind] in Hrows; [|discriminate].
  injection Hrows as <-.
  rewrite (portfolio_loop_frames _ _ _ _ _ _ Hloop).
  rewrite final_year_column_sum by exact Hyears.
  induction (positive_items allocations) as [|item rest IH].
  - reflexivity.
  - cbn [fold_right]. rewrite IH.
    destruct (row_of_year_fields (principal * snd item)
                (monthly_payment * snd item)
                (dict_get_default returns (fst item) 0)
                (Z.to_nat years - 1)) as (_ & _ & _ & HE & _).
    rewrite HE, opening_scaled, opening_balance_closed_form.
    now replace (Z.of_nat (S (Z.to_nat years - 1))) with years by lia.
Qed.

Lemma portfolio_total_value_witness :
  column_sum Ending_Balance
    (final_year_rows 2
       (List.concat
          (map (asset_frame DEFAULT_RETURNS 1000 100 2)
             (positive_items [("bonds", 0.6); ("reits", 0.4)]%string)))) ==
  fold_right
    (fun item acc =>
       snd item *
       annuity_future_value 1000 100
         (dict_get_default DEFAULT_RETURNS (fst item) 0 / 12) (2 * 12) + acc)
    0 (positive_items [("bonds", 0.6); ("reits", 0.4)]%string).
Proof.
  apply (portfolio_total_value [("bonds", 0.6); ("reits", 0.4)]%string
           DEFAULT_RETURNS 1000 100 2).
  - lia.
  - reflexivity.
Defined.

(** ** The risk figures *)

Lemma squared_weights_sum_nonneg (allocations : dict Q) :
  0 <= squared_weights_sum allocations.
Proof.
  unfold squared_weights_sum.
  induction allocations as [|item rest IH]; cbn [fold_right].
  - apply Qle_refl.
  - pose proof (Qsqr_nonneg (snd item)) as Hw.
    pose proof (Qsqr_nonneg
                  (dict_get_default ASSET_VOLATILITY (fst item) 0)) as Hv.
    pose proof (Qmult_le_0_compat _ _ Hw Hv). lra.
Qed.

(** The sum under the square root is never negative, so the volatility is
    a true square root: its square is the variance, and it is zero exactly
    when the variance is. *)
Theorem volatility_squares_to_variance (allocations : dict Q) :
  0 <= portfolio_variance allocations /\
  (sqrt (Q2R (portfolio_variance allocations)) *
   sqrt (Q2R (portfolio_variance allocations)) =
   Q2R (portfolio_variance allocations))%R /\
  (sqrt (Q2R (portfolio_variance allocations)) = 0%R <->
   portfolio_variance allocations == 0).
Proof.
  assert (Hv : 0 <= portfolio_variance allocations).
  { unfold portfolio_variance. rewrite variance_sum_acc, Qplus_0_l.
    apply squared_weights_sum_nonneg. }
  assert (HR : (0 <= Q2R (portfolio_variance allocations))%R).
  { rewrite <- RMicromega.Q2R_0. now apply Qle_Rle. }
  split; [exact Hv|]. split; [now apply sqrt_sqrt|]. split.
  - intros Hz. apply sqrt_eq_0 in Hz; [|exact HR].
    apply eqR_Qeq. now rewrite RMicromega.Q2R_0.
  - intros Hz. apply Qeq_eqR in Hz. rewrite Hz, RMicromega.Q2R_0.
    apply sqrt_0.
Qed.

Lemma weighted_sum_acc (returns items : dict Q) (acc : Q) :
  Forall (fun item => dict_mem returns (fst item) = true) items ->
  exists total,
    weighted_sum returns items acc = Ok total /\
    total == acc + weighted_returns_sum items returns.
Proof.
  revert acc. induction items as [|[asset w] rest IH]; intros acc Hall.
  - exists acc. split; [reflexivity|]. cbn. ring.
  - inversion Hall as [|x l Hmem Hrest]; subst. cbn [fst] in Hmem.
    cbn [weighted_sum]. unfold dict_get, dict_mem in *.
    destruct (dict_find returns asset) as [ret|] eqn:Hfind; [|discriminate].
    cbn [bind]. destruct (IH (acc + w * ret) Hrest) as [total [Ht Heq]].
    exists total. split; [exact Ht|]. rewrite Heq.
    unfold weighted_returns_sum. cbn [fold_right fst snd].
    rewrite (dict_get_default_found returns asset ret 0 Hfind). ring.
Qed.

(** When every asset of the allocation has a listed return, whatever its
    weight, the weighted return is the sum of weight times return. *)
Theorem weighted_return_value (allocations returns : dict Q) :
  Forall (fun item => dict_mem returns (fst item) = true) allocations ->
  exists weighted_return,
    weighted_return_of allocations returns = Ok weighted_return /\
    weighted_return == weighted_returns_sum allocations returns.
Proof.
  intros Hall. unfold weighted_return_of.
  destruct (weighted_sum_acc returns allocations 0 Hall) as [total [Ht Heq]].
  exists total. split; [exact Ht|]. rewrite Heq. ring.
Qed.

Lemma weighted_return_value_witness :
  exists weighted_return,
    weighted_return_of [("bonds", 0.6); ("reits", 0.4)]%string DEFAULT_RETURNS
      = Ok weighted_return /\
    weighted_return ==
      weighted_returns_sum [("bonds", 0.6); ("reits", 0.4)]%string
        DEFAULT_RETURNS.
Proof.
  apply (weighted_return_value [("bonds", 0.6); ("reits", 0.4)]%string
           DEFAULT_RETURNS).
  repeat constructor.
Defined.

(** An asset without a listed return makes the weighted return raise
    [KeyError] even when its weight is zero, although the aggregator skips
    such an asset. *)
Theorem weighted_return_raises_on_unlisted_asset
    (allocations returns : dict Q) :
  Exists (fun item => dict_find returns (fst item) = None) allocations ->
  exists asset,
    weighted_return_of allocations returns = Raise (KeyError asset) /\
    dict_find returns asset = None /\
    In asset (map fst allocations).
Proof.
  unfold weighted_return_of. generalize 0 as acc.
  induction allocations as [|[asset w] rest IH]; intros acc Hmiss.
  - inversion Hmiss.
  - cbn [weighted_sum]. unfold dict_get.
    destruct (dict_find returns asset) as [ret|] eqn:Hfind.
    + inversion Hmiss as [x l Hhere|x l Hlater]; subst;
        [cbn [fst] in Hhere; congruence|].
      cbn [bind]. destruct (IH (acc + w * ret) Hlater) as [a [Hr [Hn Hin]]].
      exists a. repeat split; [assumption|assumption|now right].
    + exists asset. cbn [bind]. repeat split; [assumption|now left].
Qed.

Lemma weighted_return_raises_on_unlisted_asset_witness :
  exists asset,
    weighted_return_of [("bonds", 1); ("gold", 0)]%string DEFAULT_RETURNS =
      Raise (KeyError asset) /\
    dict_find DEFAULT_RETURNS asset = None /\
    In asset (map fst [("bonds", 1); ("gold", 0)]%string).
Proof.
  apply (weighted_return_raises_on_unlisted_asset
           [("bonds", 1); ("gold", 0)]%string DEFAULT_RETURNS).
  apply Exists_cons_tl. apply Exists_cons_hd. reflexivity.
Defined.

(** ** The allocation callbacks *)

(** The stored weights sum to the slider total over 100, so the line
    "Total allocation: 100%" is shown exactly when the stored weights sum
    to 1. *)
Theorem stored_weights_sum_to_total
    (stocks_kr stocks_global reits bonds deposits crypto : Z) :
  weight_sum
    (snd (update_allocation_labels stocks_kr stocks_global reits bonds
            deposits crypto)) ==
  inject_Z (stocks_kr + stocks_global + reits + bonds + deposits + crypto) /
  100 /\
  (fst (update_allocation_labels stocks_kr stocks_global reits bonds deposits
          crypto) = AllocationIs100 <->
   weight_sum
     (snd (update_allocation_labels stocks_kr stocks_global reits bonds
             deposits crypto)) == 1).
Proof.
  assert (Hsum :
    weight_sum
      (snd (update_allocation_labels stocks_kr stocks_global reits bonds
              deposits crypto)) ==
    inject_Z (stocks_kr + stocks_global + reits + bonds + deposits + crypto) /
    100).
  { unfold update_allocation_labels, weight_sum. cbn [snd fold_right].
    rewrite !inject_Z_plus. field. }
  split; [exact Hsum|]. rewrite Hsum.
  unfold update_allocation_labels. cbn [fst].
  set (total := (stocks_kr + stocks_global + reits + bonds + deposits + crypto)%Z).
  destruct (Z.eqb_spec total 100) as [E|E]; cbn [negb].
  - rewrite E. split; reflexivity.
  - split; [discriminate|]. intros H. exfalso. apply E.
    unfold Qeq in H. cbn in H. lia.
Qed.

(** Each preset profile survives the trip through the sliders: the slider
    values store an allocation equal to the profile, and they total 100. *)
Theorem profile_round_trip (risk_profile : string) (profile : dict Q) :
  dict_find RISK_PROFILES risk_profile = Some profile ->
  exists a b c d e f,
    update_sliders_by_profile risk_profile =
      Ok [(a, true); (b, true); (c, true); (d, true); (e, true); (f, true)] /\
    fst (update_allocation_labels a b c d e f) = AllocationIs100 /\
    dict_eq (snd (update_allocation_labels a b c d e f)) profile.
Proof.
  intros Hfind.
  assert (Hname :
    (risk_profile = "conservative" \/ risk_profile = "moderate" \/
     risk_profile = "aggressive")%string).
  { unfold RISK_PROFILES in Hfind. cbn [dict_find] in Hfind.
    destruct (String.eqb_spec "conservative" risk_profile); [now left|].
    destruct (String.eqb_spec "moderate" risk_profile); [now right; left|].
    destruct (String.eqb_spec "aggressive" risk_profile); [now right; right|].
    discriminate. }
  destruct Hname as [-> | [-> | ->]];
    vm_compute in Hfind; injection Hfind as <-;
    do 6 eexists; (split; [reflexivity|]); (split; [reflexivity|]);
    repeat (constructor; [split; [reflexivity|by_evaluation]|]);
    constructor.
Qed.

Lemma profile_round_trip_witness :
  exists a b c d e f,
    update_sliders_by_profile "moderate" =
      Ok [(a, true); (b, true); (c, true); (d, true); (e, true); (f, true)] /\
    fst (update_allocation_labels a b c d e f) = AllocationIs100 /\
    dict_eq (snd (update_allocation_labels a b c d e f))
      [ ("stocks_kr", 0.35); ("stocks_global", 0.15); ("reits", 0.15);
        ("bonds", 0.25); ("deposits", 0.10); ("crypto", 0.00) ]%string.
Proof.
  apply (profile_round_trip "moderate"). reflexivity.
Defined.

Lemma lookup_all_succeeds {V : Type} (d : dict V) (keys : list string) :
  Forall (fun k => dict_mem d k = true) keys ->
  exists vs, lookup_all d keys = Ok vs /\ List.length vs = List.length keys.
Proof.
  induction 1 as [|k keys Hk _ [vs [Hvs Hlen]]].
  - now exists [].
  - cbn [lookup_all]. unfold dict_get, dict_mem in *.
    destruct (dict_find d k) as [v|]; [|discriminate].
    cbn [bind]. rewrite Hvs. cbn [bind]. exists (v :: vs).
    split; [reflexivity|]. cbn [List.length]. now rewrite Hlen.
Qed.

(** Every asset with a display name has a colour. *)
Lemma names_have_colors (k : string) :
  dict_mem ASSET_NAMES k = true -> dict_mem COLORS k = true.
Proof.
  unfold dict_mem, ASSET_NAMES, COLORS. cbn [dict_find].
  repeat match goal with
         | |- context [String.eqb ?a k] => destruct (String.eqb a k)
         end; intros H; first [reflexivity | discriminate H].
Qed.

(** The chart is the empty figure exactly when no weight is positive. *)
Theorem allocation_chart_is_empty_without_positive_weight
    (allocations : dict Q) :
  update_allocation_chart allocations = Ok None <->
  positive_items allocations = [].
Proof.
  unfold update_allocation_chart. fold (positive_items allocations).
  destruct allocations as [|item rest]; [now split|].
  cbn [is_empty].
  destruct (positive_items (item :: rest)) as [|first others];
    [now split|].
  cbn [is_empty]. split; [|discriminate].
  destruct (lookup_all ASSET_NAMES (map fst (first :: others)));
    cbn [bind]; [|discriminate].
  destruct (lookup_all COLORS (map fst (first :: others)));
    cbn [bind]; discriminate.
Qed.

Lemma values_sum (items : dict Q) :
  list_sum_Q (map (fun item => snd item * 100) items) ==
  100 * fold_right (fun item acc => snd item + acc) 0 items.
Proof.
  unfold list_sum_Q. induction items as [|item rest IH]; cbn [map fold_right].
  - ring.
  - rewrite IH. ring.
Qed.

(** When every asset of positive weight has a display name, and there is
    one, the chart shows one slice per such asset, in the order of the
    allocation, with a label and a colour each; the slices are the weights in
    percent and add up to 100 times the sum of the positive weights. *)
Theorem allocation_chart_slices (allocations : dict Q) :
  positive_items allocations <> [] ->
  Forall (fun item => dict_mem ASSET_NAMES (fst item) = true)
    (positive_items allocations) ->
  exists pie,
    update_allocation_chart allocations = Ok (Some pie) /\
    values pie =
      map (fun item => snd item * 100) (positive_items allocations) /\
    List.length (labels pie) = List.length (values pie) /\
    List.length (colors pie) = List.length (values pie) /\
    list_sum_Q (values pie) == 100 * positive_weight_sum allocations.
Proof.
  intros Hne Hnames. unfold update_allocation_chart.
  fold (positive_items allocations).
  assert (Hkeys : Forall (fun k => dict_mem ASSET_NAMES k = true)
                    (map fst (positive_items allocations))).
  { apply Forall_forall. intros k Hk. apply in_map_iff in Hk.
    destruct Hk as [item [<- Hitem]].
    now apply (proj1 (Forall_forall _ _) Hnames). }
  assert (Hcolors : Forall (fun k => dict_mem COLORS k = true)
                      (map fst (positive_items allocations))).
  { apply (Forall_impl _ names_have_colors Hkeys). }
  destruct (lookup_all_succeeds ASSET_NAMES _ Hkeys) as [ls [Hls Hllen]].
  destruct (lookup_all_succeeds COLORS _ Hcolors) as [cs [Hcs Hclen]].
  destruct allocations as [|item rest];
    [exfalso; now apply Hne|].
  cbn [is_empty].
  destruct (positive_items (item :: rest)) as [|first others] eqn:Hpos;
    [exfalso; now apply Hne|].
  cbn [is_empty]. rewrite Hls. cbn [bind]. rewrite Hcs. cbn [bind].
  eexists. split; [reflexivity|]. cbn [values labels colors].
  split; [reflexivity|].
  rewrite Hllen, Hclen, !length_map.
  repeat split; try reflexivity.
  unfold positive_weight_sum. rewrite Hpos. apply values_sum.
Qed.

Lemma allocation_chart_slices_witness :
  exists pie,
    update_allocation_chart [("bonds", 0.6); ("crypto", 0); ("reits", 0.4)]%string
      = Ok (Some pie) /\
    values pie =
      map (fun item => snd item * 100)
        (positive_items [("bonds", 0.6); ("crypto", 0); ("reits", 0.4)]%string) /\
    List.length (labels pie) = List.length (values pie) /\
    List.length (colors pie) = List.length (values pie) /\
    list_sum_Q (values pie) ==
      100 *
      positive_weight_sum [("bonds", 0.6); ("crypto", 0); ("reits", 0.4)]%string.
Proof.
  apply (allocation_chart_slices
           [("bonds", 0.6); ("crypto", 0); ("reits", 0.4)]%string).
  - discriminate.
  - repeat constructor.
Defined.

(** ** The callbacks on the page's own allocation *)

Lemma portfolio_loop_total (returns : dict Q) (p m : Q) (years : Z)
    (items : dict Q) :
  Forall
    (fun item =>
       exists ret,
         dict_find returns (fst item) = Some ret /\
         Qeq_bool (1 + ret / 12) 0 = false)
    items ->
  exists steps, portfolio_loop returns p m years items = Ok steps.
Proof.
  induction 1 as [|[asset w] rest [ret [Hfind Hbase]] _ [steps Hsteps]].
  - now exists [].
  - cbn [portfolio_loop]. destruct (Qgtb w 0); [|eauto].
    cbn [fst] in Hfind. unfold asset_projection, dict_get.
    rewrite Hfind. cbn [bind]. rewrite calculate_future_value_eq.
    change (period_rate ret default_compound_frequency) with (ret / 12).
    rewrite Hbase, andb_false_r. cbn [bind]. rewrite Hsteps. cbn [bind].
    eauto.
Qed.

Lemma chart_traces_succeeds (assets : list string) :
  Forall (fun asset => dict_mem ASSET_NAMES asset = true) assets ->
  exists traces, chart_traces assets = Ok traces.
Proof.
  induction 1 as [|asset rest Hname _ [traces Htraces]].
  - now exists [].
  - cbn [chart_traces]. pose proof (names_have_colors asset Hname) as Hcolor.
    unfold dict_get, dict_mem in *.
    destruct (dict_find ASSET_NAMES asset); [|discriminate].
    destruct (dict_find COLORS asset); [|discriminate].
    cbn [bind]. rewrite Htraces. cbn [bind]. eauto.
Qed.

(** The assets of the rows are assets of the allocation. *)
Lemma rows_assets (allocations returns : dict Q) (p m : Q) (years : Z)
    (rows : list PortfolioRow) :
  calculate_portfolio_returns allocations returns p m years = Ok rows ->
  Forall (fun asset => In asset (map fst allocations)) (map Asset rows).
Proof.
  unfold calculate_portfolio_returns. intros Hrows.
  destruct (portfolio_loop returns p m years allocations) as [steps|e]
    eqn:Hloop; cbn [bind] in Hrows; [|discriminate].
  injection Hrows as <-. rewrite (portfolio_loop_frames _ _ _ _ _ _ Hloop).
  apply Forall_forall. intros asset Hin.
  apply in_map_iff in Hin. destruct Hin as [row [<- Hrow]].
  apply in_concat in Hrow. destruct Hrow as [frame [Hframe Hrow]].
  apply in_map_iff in Hframe. destruct Hframe as [item [<- Hitem]].
  unfold asset_frame in Hrow. apply in_map_iff in Hrow.
  destruct Hrow as [r [<- _]]. cbn [Asset].
  apply in_map. unfold positive_items in Hitem.
  now apply filter_In in Hitem.
Qed.

Lemma store_keys (stocks_kr stocks_global reits bonds deposits crypto : Z) :
  map fst
    (snd (update_allocation_labels stocks_kr stocks_global reits bonds
            deposits crypto)) =
  ["stocks_kr"; "stocks_global"; "reits"; "bonds"; "deposits"; "crypto"]%string.
Proof. reflexivity. Qed.

Lemma Forall_on_keys {V : Type} (P : string -> Prop) (d : dict V) :
  Forall P (map fst d) -> Forall (fun item => P (fst item)) d.
Proof.
  intros H. apply Forall_forall. intros item Hin.
  apply (proj1 (Forall_forall _ _) H). now apply in_map.
Qed.

(** With inputs inside the ranges the page declares for its fields
    (sliders from 0 to 100, an initial amount from 100 to 100,000, a monthly
    amount from 10 to 1,000, a horizon from 1 to 50 years), the portfolio
    callback never raises on an allocation stored by
    [update_allocation_labels]: every stored asset has a return, a name and a
    colour, and no listed return makes the growth base zero. *)
Theorem portfolio_callback_never_raises
    (stocks_kr stocks_global reits bonds deposits crypto : Z)
    (initial monthly : Q) (years : Z) (rebalancing : string)
    (lifecycle : list string) :
  Forall (fun slider => 0 <= slider <= 100)%Z
    [stocks_kr; stocks_global; reits; bonds; deposits; crypto] ->
  100 <= initial <= 100000 ->
  10 <= monthly <= 1000 ->
  (1 <= years <= 50)%Z ->
  exists view,
    update_portfolio_performance
      (snd (update_allocation_labels stocks_kr stocks_global reits bonds
              deposits crypto))
      initial monthly years rebalancing lifecycle = Ok view.
Proof.
  intros _ _ _ _.
  set (store := snd (update_allocation_labels stocks_kr stocks_global reits
                       bonds deposits crypto)).
  pose proof (store_keys stocks_kr stocks_global reits bonds deposits crypto)
    as Hkeys. fold store in Hkeys.
  assert (Hreturns :
    Forall (fun item => exists ret,
              dict_find DEFAULT_RETURNS (fst item) = Some ret /\
              Qeq_bool (1 + ret / 12) 0 = false) store).
  { apply (Forall_on_keys
             (fun k => exists ret,
                dict_find DEFAULT_RETURNS k = Some ret /\
                Qeq_bool (1 + ret / 12) 0 = false)).
    rewrite Hkeys. repeat constructor; eexists; split; reflexivity. }
  assert (Hlisted :
    Forall (fun item => dict_mem DEFAULT_RETURNS (fst item) = true) store).
  { apply (Forall_on_keys (fun k => dict_mem DEFAULT_RETURNS k = true)).
    rewrite Hkeys. repeat constructor. }
  unfold update_portfolio_performance.
  change (is_empty store) with false. cbv iota.
  unfold performance_portfolio.
  destruct (portfolio_loop_total DEFAULT_RETURNS (initial * 10000)
              (monthly * 10000) years store Hreturns) as [steps Hsteps].
  destruct (calculate_portfolio_returns store DEFAULT_RETURNS
              (initial * 10000) (monthly * 10000) years) as [rows|e] eqn:Hrows;
    [|unfold calculate_portfolio_returns in Hrows; rewrite Hsteps in Hrows;
      discriminate].
  cbn [bind]. destruct (is_empty rows); [eauto|].
  destruct (chart_traces_succeeds (map Asset rows)) as [traces ->].
  { apply (Forall_impl _ (P := fun asset => In asset (map fst store))).
    - rewrite Hkeys. intros asset Hin. cbn [In] in Hin.
      repeat (destruct Hin as [<- | Hin]; [reflexivity|]). contradiction.
    - exact (rows_assets _ _ _ _ _ _ Hrows). }
  cbn [bind].
  destruct (weighted_sum_acc DEFAULT_RETURNS store 0 Hlisted) as [wr [Hwr _]].
  unfold weighted_return_of. rewrite Hwr. cbn [bind].
  unfold risk_metrics. rewrite sharpe_ratio_of_sqrt. cbn [bind]. eauto.
Qed.

Lemma portfolio_callback_never_raises_witness :
  exists view,
    update_portfolio_performance
      (snd (update_allocation_labels 35 15 15 25 10 0))
      1000 114 20 "yearly" [] = Ok view.
Proof.
  apply (portfolio_callback_never_raises 35 15 15 25 10 0 1000 114 20
           "yearly" []).
  - repeat constructor; lia.
  - split; by_evaluation.
  - split; by_evaluation.
  - lia.
Defined.

(** Inside the same ranges the scenario callback never raises either, for
    any button or none. *)
Theorem scenario_callback_never_raises
    (stocks_kr stocks_global reits bonds deposits crypto : Z)
    (triggered : option string) (initial monthly : Q) (years : Z) :
  Forall (fun slider => 0 <= slider <= 100)%Z
    [stocks_kr; stocks_global; reits; bonds; deposits; crypto] ->
  100 <= initial <= 100000 ->
  10 <= monthly <= 1000 ->
  (1 <= years <= 50)%Z ->
  exists view,
    update_scenario_analysis triggered
      (snd (update_allocation_labels stocks_kr stocks_global reits bonds
              deposits crypto))
      initial monthly years = Ok view.
Proof.
  intros _ _ _ _.
  set (store := snd (update_allocation_labels stocks_kr stocks_global reits
                       bonds deposits crypto)).
  pose proof (store_keys stocks_kr stocks_global reits bonds deposits crypto)
    as Hkeys. fold store in Hkeys.
  unfold update_scenario_analysis.
  destruct triggered as [button_id|]; [|eauto].
  change (is_empty store) with false. cbv iota.
  destruct (dict_find scenario_adjustments button_id) as [scenario|] eqn:Hfind;
    [|eauto].
  assert (Hscenario :
    scenario = mkScenario "Bull Market" 1.5 1.2 \/
    scenario = mkScenario "Bear Market" 0.3 1.8 \/
    scenario = mkScenario "Normal Market" 1.0 1.0).
  { unfold scenario_adjustments in Hfind. cbn [dict_find] in Hfind.
    destruct (String.eqb "scenario-bull" button_id);
      [injection Hfind as <-; now left|].
    destruct (String.eqb "scenario-bear" button_id);
      [injection Hfind as <-; now right; left|].
    destruct (String.eqb "scenario-normal" button_id);
      [injection Hfind as <-; now right; right|discriminate]. }
  assert (Hreturns :
    Forall (fun item => exists ret,
              dict_find (adjusted_returns scenario) (fst item) = Some ret /\
              Qeq_bool (1 + ret / 12) 0 = false) store).
  { apply (Forall_on_keys
             (fun k => exists ret,
                dict_find (adjusted_returns scenario) k = Some ret /\
                Qeq_bool (1 + ret / 12) 0 = false)).
    rewrite Hkeys.
    destruct Hscenario as [-> | [-> | ->]];
      repeat constructor; eexists; split; reflexivity. }
  unfold scenario_portfolio, calculate_portfolio_returns.
  destruct (portfolio_loop_total (adjusted_returns scenario)
              (initial * 10000) (monthly * 10000) years store Hreturns)
    as [steps ->].
  cbn [bind]. destruct (is_empty (List.concat (map snd steps))); eauto.
Qed.

Lemma scenario_callback_never_raises_witness :
  exists view,
    update_scenario_analysis (Some "scenario-bull"%string)
      (snd (update_allocation_labels 35 15 15 25 10 0))
      1000 114 20 = Ok view.
Proof.
  apply (scenario_callback_never_raises 35 15 15 25 10 0
           (Some "scenario-bull"%string) 1000 114 20).
  - repeat constructor; lia.
  - split; by_evaluation.
  - split; by_evaluation.
  - lia.
Defined.

(** ** The single-asset callback *)

Lemma iloc_last_map {A B : Type} (f : A -> B) (frame : list A) :
  iloc_last (map f frame) =
  match iloc_last frame with
  | inl e => inl e
  | inr row => inr (f row)
  end.
Proof.
  unfold iloc_last. rewrite <- map_rev. now destruct (rev frame).
Qed.

Lemma ledger_is_empty (principal monthly_payment annual_rate : Q) (years : Z) :
  is_empty
    (generate_year_by_year_data principal monthly_payment annual_rate years) =
  (years <=? 0)%Z.
Proof.
  rewrite ledger_rows.
  destruct (Z.to_nat years) as [|K] eqn:EK.
  - symmetry. apply Z.leb_le. lia.
  - cbn [seq map is_empty]. symmetry. apply Z.leb_gt. lia.
Qed.

(** With a horizon of 0 or less the callback raises: [IndexError] from
    [df.iloc[-1]], or, when the tax option is on, [KeyError] for the column
    ['Total Interest'] that the empty table lacks. *)
Theorem simple_investment_raises_without_years
    (initial monthly annual_return : Q) (years : Z) (options : list string)
    (compound_freq : string) :
  (years <= 0)%Z ->
  update_simple_investment initial monthly annual_return years options
    compound_freq =
  inl (if has_option "tax" options then Builtin (KeyError "Total Interest")
       else IndexError).
Proof.
  intros Hyears. unfold update_simple_investment.
  rewrite ledger_is_empty.
  replace (years <=? 0)%Z with true by (symmetry; now apply Z.leb_le).
  rewrite ledger_rows. replace (Z.to_nat years) with 0%nat by lia.
  cbn [seq map iloc_last rev].
  now destruct (has_option "tax" options).
Qed.

Lemma simple_investment_raises_without_years_witness :
  update_simple_investment 1000 114 6 0 ["tax"]%string "monthly" =
  inl (if has_option "tax" ["tax"]%string
       then Builtin (KeyError "Total Interest") else IndexError).
Proof.
  apply (simple_investment_raises_without_years 1000 114 6 0 ["tax"]%string
           "monthly").
  lia.
Defined.

(** With a positive horizon the callback returns its summary.  The rate is
    [annual_return / 100], less 0.025 under the inflation option; the balance
    is the annuity value at a twelfth of that rate over [12 * years] months,
    for rates of any sign; the contributions are the principal plus twelve
    payments a year, the amounts being entered in units of 10,000; and the
    final value is the balance, less the tax on the cumulative interest under
    the tax option.  The frequency selector plays no part. *)
Theorem simple_investment_summary
    (initial monthly annual_return : Q) (years : Z) (options : list string)
    (compound_freq : string) :
  (0 < years)%Z ->
  exists summary,
    update_simple_investment initial monthly annual_return years options
      compound_freq = inr summary /\
    simple_total_invested summary ==
      initial * 10000 + inject_Z years * (monthly * 10000 * 12) /\
    simple_total_interest summary ==
      annuity_future_value (initial * 10000) (monthly * 10000)
        ((if has_option "inflation" options
          then annual_return / 100 - 0.025 else annual_return / 100) / 12)
        (years * 12) -
      simple_total_invested summary /\
    simple_final_value summary ==
      annuity_future_value (initial * 10000) (monthly * 10000)
        ((if has_option "inflation" options
          then annual_return / 100 - 0.025 else annual_return / 100) / 12)
        (years * 12) -
      (if has_option "tax" options
       then interest_tax (simple_total_interest summary) else 0).
Proof.
  intros Hyears.
  change (if has_option "inflation" options
          then annual_return / 100 - 0.025 else annual_return / 100)
    with (simple_rate annual_return options).
  unfold update_simple_investment.
  rewrite ledger_is_empty, iloc_last_map.
  replace (years <=? 0)%Z with false by (symmetry; apply Z.leb_gt; lia).
  rewrite ledger_last_row by exact Hyears.
  set (row := row_of_year (initial * 10000) (monthly * 10000)
                (simple_rate annual_return options) (Z.to_nat years - 1)).
  assert (Hrow :
    Ending_Balance row ==
      annuity_future_value (initial * 10000) (monthly * 10000)
        (simple_rate annual_return options / 12) (years * 12) /\
    Total_Invested row ==
      initial * 10000 + inject_Z years * (monthly * 10000 * 12) /\
    Total_Interest row = Ending_Balance row - Total_Invested row).
  { destruct (row_of_year_fields (initial * 10000) (monthly * 10000)
                (simple_rate annual_return options) (Z.to_nat years - 1))
      as (_ & _ & _ & HE & _ & HT & HC).
    fold row in HE, HT, HC.
    replace (S (Z.to_nat years - 1)) with (Z.to_nat years) in * by lia.
    split; [|split].
    - rewrite HE, opening_balance_closed_form.
      now rewrite Z2Nat.id by lia.
    - rewrite HT, invested_after_closed_form.
      now rewrite Z2Nat.id by lia.
    - now rewrite HE, HT, HC. }
  destruct Hrow as (HE & HT & HC).
  destruct (has_option "tax" options);
    eexists; (split; [reflexivity|]);
    cbn [simple_total_invested simple_total_interest simple_final_value
         apply_tax After_Tax_Balance];
    (split; [exact HT|]); (split; [now rewrite HC, HE|]);
    rewrite HE; first [reflexivity | ring].
Qed.

Lemma simple_investment_summary_witness :
  exists summary,
    update_simple_investment 1000 114 6 2 ["inflation"; "tax"]%string "yearly"
      = inr summary /\
    simple_total_invested summary ==
      1000 * 10000 + inject_Z 2 * (114 * 10000 * 12) /\
    simple_total_interest summary ==
      annuity_future_value (1000 * 10000) (114 * 10000)
        ((if has_option "inflation" ["inflation"; "tax"]%string
          then 6 / 100 - 0.025 else 6 / 100) / 12)
        (2 * 12) -
      simple_total_invested summary /\
    simple_final_value summary ==
      annuity_future_value (1000 * 10000) (114 * 10000)
        ((if has_option "inflation" ["inflation"; "tax"]%string
          then 6 / 100 - 0.025 else 6 / 100) / 12)
        (2 * 12) -
      (if has_option "tax" ["inflation"; "tax"]%string
       then interest_tax (simple_total_interest summary) else 0).
Proof.
  apply (simple_investment_summary 1000 114 6 2 ["inflation"; "tax"]%string
           "yearly").
  lia.
Defined.

(** Case analysis on the comparisons of the tax rule. *)
Ltac tax_cases :=
  unfold interest_tax, py_max;
  repeat match goal with
         | |- context [Qgtb ?a ?b] =>
             let E := fresh "E" in
             destruct (Qgtb a b) eqn:E;
             [apply Qgtb_true in E | apply Qgtb_false in E]
         end.

(** The tax is 15.4% of the cumulative interest above 20,000,000 and
    nothing up to that amount; the [max] of the rule never changes it; it is
    never negative, and it is zero exactly up to the threshold. *)
Theorem interest_tax_rule (x : Q) :
  interest_tax x ==
    (if Qgtb x 20000000 then (x - 20000000) * 0.154 else 0) /\
  0 <= interest_tax x /\
  (interest_tax x == 0 <-> x <= 20000000).
Proof.
  split; [|split; [|split]].
  - tax_cases; lra.
  - tax_cases; lra.
  - tax_cases; intros H; lra.
  - tax_cases; intros H; lra.
Qed.

Lemma interest_tax_lipschitz (x y : Q) :
  x <= y ->
  interest_tax x <= interest_tax y /\
  interest_tax y - interest_tax x <= y - x.
Proof.
  intros Hxy. tax_cases; split; lra.
Qed.

(** The inflation option never raises the final value: with amounts that
    are not negative, a positive horizon and a return of -1197.5% or more,
    switching it on leaves the contributions as they are and the final
    value, before or after tax, no higher. *)
Theorem inflation_never_raises_final_value
    (initial monthly annual_return : Q) (years : Z) (options : list string)
    (compound_freq : string) :
  0 <= initial -> 0 <= monthly -> -1197.5 <= annual_return ->
  (0 < years)%Z ->
  has_option "inflation" options = false ->
  exists nominal adjusted,
    update_simple_investment initial monthly annual_return years options
      compound_freq = inr nominal /\
    update_simple_investment initial monthly annual_return years
      ("inflation"%string :: options) compound_freq = inr adjusted /\
    simple_total_invested adjusted = simple_total_invested nominal /\
    simple_final_value adjusted <= simple_final_value nominal.
Proof.
  intros Hi Hm Hlow Hyears Hoff.
  assert (Hnominal : simple_rate annual_return options = annual_return / 100).
  { unfold simple_rate. now rewrite Hoff. }
  assert (Hadjusted :
    simple_rate annual_return ("inflation"%string :: options) =
    annual_return / 100 - 0.025) by reflexivity.
  assert (Htax :
    has_option "tax" ("inflation"%string :: options) =
    has_option "tax" options) by reflexivity.
  unfold update_simple_investment.
  rewrite Htax, Hnominal, Hadjusted, !ledger_is_empty, !iloc_last_map.
  replace (years <=? 0)%Z with false by (symmetry; apply Z.leb_gt; lia).
  rewrite !ledger_last_row by exact Hyears.
  set (k := (Z.to_nat years - 1)%nat).
  set (p := initial * 10000). set (m := monthly * 10000).
  set (r := annual_return / 100).
  assert (Hp : 0 <= p) by (unfold p; lra).
  assert (Hmm : 0 <= m) by (unfold m; lra).
  assert (Hr : -12 <= r - 0.025 /\ r - 0.025 <= r).
  { assert (H : -1197.5 / 100 <= annual_return / 100).
    { unfold Qdiv. apply Qmult_le_compat_r; [exact Hlow|discriminate]. }
    assert (E : -1197.5 / 100 == -11.975) by reflexivity.
    rewrite E in H. fold r in H. clearbody r. split; lra. }
  destruct Hr as [Hr1 Hr2].
  destruct (opening_mono p m (r - 0.025) r (S k) Hp Hmm Hr1 Hr2) as [_ Hle].
  destruct (row_of_year_fields p m r k) as (_ & _ & _ & HE & _ & HT & HC).
  destruct (row_of_year_fields p m (r - 0.025) k)
    as (_ & _ & _ & HE' & _ & HT' & HC').
  destruct (has_option "tax" options);
    do 2 eexists; (split; [reflexivity|]); (split; [reflexivity|]);
    cbn [simple_total_invested simple_final_value];
    (split; [now rewrite HT, HT'|]).
  - unfold apply_tax. cbn [After_Tax_Balance].
    rewrite HE, HE', HC, HC'.
    set (paid := invested_after p m (S k)).
    set (balance := opening_balance p m r (S k)) in *.
    set (balance' := opening_balance p m (r - 0.025) (S k)) in *.
    assert (Hxy : balance' - paid <= balance - paid) by lra.
    destruct (interest_tax_lipschitz _ _ Hxy) as [_ Hlip]. lra.
  - now rewrite HE, HE'.
Qed.

Lemma inflation_never_raises_final_value_witness :
  exists nominal adjusted,
    update_simple_investment 1000 114 6 2 ["tax"]%string "monthly"
      = inr nominal /\
    update_simple_investment 1000 114 6 2 ["inflation"; "tax"]%string "monthly"
      = inr adjusted /\
    simple_total_invested adjusted = simple_total_invested nominal /\
    simple_final_value adjusted <= simple_final_value nominal.
Proof.
  apply (inflation_never_raises_final_value 1000 114 6 2 ["tax"]%string
           "monthly"); first [by_evaluation | lia].
Defined.
